(** * omero-iviewer: the application context and the regions panel

    A shallow embedding of [app/context.js] (class [Context]) and of the
    key handling of [regions/regions.js] (class [Regions]), with the
    properties of the shared image-config registry and of the key-listener
    registry stated and proved over it.

    JavaScript values are a small tagged union, the two [Map] fields are
    insertion-ordered association lists, and the methods are written in a
    state-and-exception monad over the heap of the one [Context] object, the
    log of calls that leave it (lifecycle hooks, event bus, key handlers) and
    [window.onkeydown]. *)

From Stdlib Require Import ZArith String Ascii List Lia.
From stdpp Require Import base decidable option list strings gmap.

Local Open Scope string_scope.
Local Open Scope Z_scope.
Local Open Scope list_scope.

(** ** JavaScript values *)

(** Numbers.  Ids and key codes are integral doubles, far below 2^53, and
    are carried by [Z]; the guards of the code ([typeof x === 'number'],
    [x < 0]) also let through the doubles that are no integers, of which
    [NaN] and the two infinities are kept.  Leibniz equality on [number] is
    the SameValueZero comparison of [Map] keys ([NaN] equals itself, zero has
    no sign). *)
Inductive number : Type :=
| Int (z : Z)
| NaN
| Infinity
| NegInfinity.

Global Instance number_eq_dec : EqDecision number.
Proof. solve_decision. Defined.

(** [n < 0] *)
Definition number_ltb0 (n : number) : bool :=
  match n with
  | Int z => z <? 0
  | NegInfinity => true
  | NaN | Infinity => false
  end.

(** [Number.isInteger(n)] *)
Definition isInteger (n : number) : bool :=
  match n with
  | Int _ => true
  | _ => false
  end.

(** The methods of [Regions] that [key_actions] refers to. *)
Inductive Method : Type :=
| deleteShapes
| saveShapes
| redoHistory
| undoHistory.

Global Instance Method_eq_dec : EqDecision Method.
Proof. solve_decision. Defined.

(** One entry of [Regions.key_actions]: [{key: .., func: .., args: ..}];
    [args] is absent or an array of boolean literals. *)
Record KeyAction : Type := mkKeyAction {
  key : number;
  func : Method;
  args : option (list bool)
}.

Global Instance KeyAction_eq_dec : EqDecision KeyAction.
Proof. solve_decision. Defined.

(** Function objects: the arrow function that [Regions.attached] builds
    around an action, or any other function, named by a number. *)
Inductive Fn : Type :=
| RegionsKeyHandler (action : KeyAction)
| Native (name : nat).

Global Instance Fn_eq_dec : EqDecision Fn.
Proof. solve_decision. Defined.

(** Modelled from the spec: an instance of [ImageConfig], the class of
    [model/image_config.js], "identified by a unique integer id assigned at
    creation" and holding "an image identifier"; [ref] is the identity of
    the object. *)
Module ImageConfig.
Record t : Type := mk {
  ref : nat;
  id : number;
  image_id : number
}.
End ImageConfig.
Abbreviation ImageConfig := ImageConfig.t.

Global Instance ImageConfig_eq_dec : EqDecision ImageConfig.
Proof. solve_decision. Defined.

Inductive value : Type :=
| VUndefined
| VNull
| VBoolean (b : bool)
| VNumber (n : number)
| VString (s : string)
| VFunction (f : Fn)
| VImageConfig (c : ImageConfig)
| VEventAggregator (ref : nat)
| VObject (ref : nat).

Global Instance value_eq_dec : EqDecision value.
Proof. solve_decision. Defined.

(** [typeof v] *)
Definition typeof (v : value) : string :=
  match v with
  | VUndefined => "undefined"
  | VNull => "object"
  | VBoolean _ => "boolean"
  | VNumber _ => "number"
  | VString _ => "string"
  | VFunction _ => "function"
  | VImageConfig _ | VEventAggregator _ | VObject _ => "object"
  end.

(** [v instanceof ImageConfig]; a primitive is an instance of nothing. *)
Definition instanceof_ImageConfig (v : value) : bool :=
  match v with
  | VImageConfig _ => true
  | _ => false
  end.

(** [v instanceof EventAggregator] *)
Definition instanceof_EventAggregator (v : value) : bool :=
  match v with
  | VEventAggregator _ => true
  | _ => false
  end.

(** [a === b]: same type and same value, [NaN] equal to nothing, an
    [ImageConfig] equal to itself only. *)
Definition strict_equals (a b : value) : bool :=
  match a, b with
  | VNumber NaN, _ | _, VNumber NaN => false
  | VImageConfig c, VImageConfig d =>
      bool_decide (ImageConfig.ref c = ImageConfig.ref d)
  | _, _ => bool_decide (a = b)
  end.

(** Truthiness of a value in a condition. *)
Definition truthy (v : value) : bool :=
  match v with
  | VUndefined | VNull => false
  | VBoolean b => b
  | VNumber (Int z) => negb (z =? 0)
  | VNumber NaN => false
  | VNumber _ => true
  | VString s => negb (String.eqb s "")
  | _ => true
  end.

(** ** Strings *)

Fixpoint indexOf_from (i : Z) (str sub : string) : Z :=
  if String.prefix sub str then i
  else match str with
       | EmptyString => -1
       | String _ rest => indexOf_from (i + 1) rest sub
       end.

(** [str.indexOf(sub)] *)
Definition indexOf (str sub : string) : Z := indexOf_from 0 str sub.

(** [str.length] *)
Definition str_length (str : string) : Z := Z.of_nat (String.length str).

Definition upper (c : ascii) : ascii :=
  let n := nat_of_ascii c in
  if ((97 <=? n) && (n <=? 122))%nat then ascii_of_nat (n - 32) else c.

(** [str.toUpperCase()], on ASCII text such as tag names. *)
Fixpoint toUpperCase (str : string) : string :=
  match str with
  | EmptyString => EmptyString
  | String c rest => String (upper c) (toUpperCase rest)
  end.

(** ** Map: insertion-ordered, keys compared by SameValueZero *)

Module JsMap.
Section Operations.
Context {K V : Type} `{EqDecision K}.

(** [m.get(k)]; [None] is [undefined]. *)
Fixpoint get (k : K) (m : list (K * V)) : option V :=
  match m with
  | [] => None
  | (k', v) :: rest => if decide (k = k') then Some v else get k rest
  end.

(** [m.has(k)] *)
Definition has (k : K) (m : list (K * V)) : bool :=
  match get k m with Some _ => true | None => false end.

(** [m.set(k, v)]: an existing key keeps its place, a new one goes
    last. *)
Fixpoint set (k : K) (v : V) (m : list (K * V)) : list (K * V) :=
  match m with
  | [] => [(k, v)]
  | (k', v') :: rest =>
      if decide (k = k') then (k, v) :: rest else (k', v') :: set k v rest
  end.

(** [m.delete(k)]; on a map that holds each key once, as a [Map] does,
    this takes out the one entry under [k]. *)
Fixpoint delete (k : K) (m : list (K * V)) : list (K * V) :=
  match m with
  | [] => []
  | (k', v') :: rest =>
      if decide (k = k') then delete k rest else (k', v') :: delete k rest
  end.

Definition keys (m : list (K * V)) : list K := map fst m.
Definition values (m : list (K * V)) : list V := map snd m.

(** [m.size] *)
Definition size (m : list (K * V)) : nat := List.length m.

(** A [Map] holds each key once. *)
Definition unique (m : list (K * V)) : Prop := NoDup (keys m).
End Operations.
End JsMap.

(** ** The heap of the model *)

(** The topics of [events/events.js] that the two classes import. *)
Inductive Topic : Type :=
| IMAGE_CONFIG_SELECT
| REGIONS_SET_PROPERTY
| REGIONS_STORE_SHAPES
| REGIONS_SHOW_COMMENTS.

(** A keydown event as the listener reads it: [event.ctrlKey],
    [event.target.tagName] ([None] when the event has no target) and
    [event.keyCode]. *)
Record KeyboardEvent : Type := mkKeyboardEvent {
  ctrlKey : bool;
  target_tagName : option string;
  keyCode : number
}.

(** Calls that leave [Context]: what the code asks of its collaborators,
    in the order it asks.  The hooks of [ImageConfig] and the event bus are
    logged and taken to return without calling back into the context; what
    a key handler throws is a parameter of the listener. *)
Inductive Effect : Type :=
| ImageConfig_new (c : ImageConfig)
| ImageConfig_bind (c : ImageConfig)
| ImageConfig_unbind (c : ImageConfig)
| ImageInfo_requestData (c : ImageConfig)
| EventAggregator_publish (topic : Topic) (image_config : value)
| Event_preventDefault (event : KeyboardEvent)
| Function_call (name : nat) (event : KeyboardEvent)
| Regions_apply (func : Method) (args : option (list bool)).

Inductive Exception : Type :=
| TypeError
| Thrown (v : value).

(** The fields of a [Context] object. *)
Record Context : Type := mkContext {
  eventbus : value;
  server : value;
  image_configs : list (number * ImageConfig);
  selected_config : value;
  useMDI : bool;
  show_regions : bool;
  show_scalebar : bool;
  key_listeners : list (number * Fn);
  initParams : gmap string value
}.

(** The field initialisers of the class. *)
Definition Context_fields : Context :=
  {| eventbus := VNull;
     server := VNull;
     image_configs := [];
     selected_config := VNull;
     useMDI := false;
     show_regions := false;
     show_scalebar := false;
     key_listeners := [];
     initParams := ∅ |}.

Definition with_eventbus (v : value) (c : Context) : Context :=
  {| eventbus := v; server := server c; image_configs := image_configs c;
     selected_config := selected_config c; useMDI := useMDI c;
     show_regions := show_regions c; show_scalebar := show_scalebar c;
     key_listeners := key_listeners c; initParams := initParams c |}.

Definition with_server (v : value) (c : Context) : Context :=
  {| eventbus := eventbus c; server := v; image_configs := image_configs c;
     selected_config := selected_config c; useMDI := useMDI c;
     show_regions := show_regions c; show_scalebar := show_scalebar c;
     key_listeners := key_listeners c; initParams := initParams c |}.

Definition with_image_configs (m : list (number * ImageConfig)) (c : Context)
  : Context :=
  {| eventbus := eventbus c; server := server c; image_configs := m;
     selected_config := selected_config c; useMDI := useMDI c;
     show_regions := show_regions c; show_scalebar := show_scalebar c;
     key_listeners := key_listeners c; initParams := initParams c |}.

Definition with_selected_config (v : value) (c : Context) : Context :=
  {| eventbus := eventbus c; server := server c;
     image_configs := image_configs c;
     selected_config := v; useMDI := useMDI c;
     show_regions := show_regions c; show_scalebar := show_scalebar c;
     key_listeners := key_listeners c; initParams := initParams c |}.

Definition with_key_listeners (m : list (number * Fn)) (c : Context)
  : Context :=
  {| eventbus := eventbus c; server := server c;
     image_configs := image_configs c;
     selected_config := selected_config c; useMDI := useMDI c;
     show_regions := show_regions c; show_scalebar := show_scalebar c;
     key_listeners := m; initParams := initParams c |}.

Definition with_initParams (p : gmap string value) (c : Context) : Context :=
  {| eventbus := eventbus c; server := server c;
     image_configs := image_configs c;
     selected_config := selected_config c; useMDI := useMDI c;
     show_regions := show_regions c; show_scalebar := show_scalebar c;
     key_listeners := key_listeners c; initParams := p |}.

(** What a method runs in: the [Context] object it is called on, the calls
    made so far, the number of [ImageConfig] objects created so far, and
    whether [window.onkeydown] holds the listener ([false] is [null]). *)
Record World : Type := mkWorld {
  this : Context;
  log : list Effect;
  instances : nat;
  window_onkeydown : bool
}.

Definition with_this (c : Context) (w : World) : World :=
  {| this := c; log := log w; instances := instances w;
     window_onkeydown := window_onkeydown w |}.

(** ** The monad of the methods: state, and a thrown exception *)

Inductive Completion (A : Type) : Type :=
| Normal (a : A) (w : World)
| Throw (e : Exception) (w : World).
Arguments Normal {A} a w.
Arguments Throw {A} e w.

Definition M (A : Type) : Type := World -> Completion A.

Definition pure {A} (a : A) : M A := fun w => Normal a w.

Definition andThen {A B} (m : M A) (k : A -> M B) : M B :=
  fun w =>
    match m w with
    | Normal a w' => k a w'
    | Throw e w' => Throw e w'
    end.

Notation "'let*' x ':=' m 'in' k" := (andThen m (fun x => k))
  (at level 10, x name, m at level 100, k at level 200, only parsing).
Notation "m ';;' k" := (andThen m (fun _ => k))
  (at level 100, k at level 200, right associativity, only parsing).

Definition throw {A} (e : Exception) : M A := fun w => Throw e w.

(** Read a field of [this]. *)
Definition gets {A} (field : Context -> A) : M A :=
  fun w => Normal (field (this w)) w.

(** Assign to a field of [this]. *)
Definition assign (update : Context -> Context) : M unit :=
  fun w => Normal tt (with_this (update (this w)) w).

(** Make a call to a collaborator. *)
Definition emit (e : Effect) : M unit :=
  fun w =>
    Normal tt {| this := this w; log := log w ++ [e];
                 instances := instances w;
                 window_onkeydown := window_onkeydown w |}.

(** [try { m } catch (whatever) {}] *)
Definition try_catch (m : M value) : M value :=
  fun w =>
    match m w with
    | Normal a w' => Normal a w'
    | Throw _ w' => Normal VUndefined w'
    end.

(** [list.map(f)], for its effects. *)
Fixpoint array_map {A} (f : A -> M value) (l : list A) : M value :=
  match l with
  | [] => pure VUndefined
  | a :: rest => f a;; array_map f rest
  end.

(** [v < 0] on a value that the guard before it has found to be a number. *)
Definition lt0 (v : value) : bool :=
  match v with
  | VNumber n => number_ltb0 n
  | _ => false
  end.

(** A parameter with a default: [undefined] takes the default. *)
Definition default_param (v d : value) : value :=
  match v with
  | VUndefined => d
  | _ => v
  end.

(** ** class Context *)

Section ContextClass.

(** The id that the constructor of [ImageConfig] gives to the n-th
    instance it builds, and the key [REQUEST_PARAMS.SERVER] of
    [utils/constants.js], are taken as they come. *)
Variable ImageConfig_id : nat -> number.
Variable REQUEST_PARAMS_SERVER : string.

(** What a function that is no closure of this code throws when it is
    called, and what a method of [Regions] does, if anything. *)
Variable Function_throws : nat -> option Exception.
Variable Method_throws : Method -> option Exception.

(** Modelled from the spec: [new ImageConfig(this, image_id)], which
    "constructs a new ImageConfig bound to this Context and the given image
    id" and "assigns it a fresh unique id"; the id is whatever
    [ImageConfig_id] gives, and the call is logged. *)
Definition new_ImageConfig (image_id : number) : M ImageConfig :=
  fun w =>
    let c := ImageConfig.mk (instances w) (ImageConfig_id (instances w))
               image_id in
    Normal c {| this := this w; log := log w ++ [ImageConfig_new c];
                instances := S (instances w);
                window_onkeydown := window_onkeydown w |}.

(** [publish()]: [this.eventbus.publish.apply(this.eventbus, arguments)];
    only an [EventAggregator] has a [publish] to apply. *)
Definition publish (topic : Topic) (payload : value) : M value :=
  let* bus := gets eventbus in
  match bus with
  | VEventAggregator _ => emit (EventAggregator_publish topic payload);;
                          pure VUndefined
  | _ => throw TypeError
  end.

(** [getImageConfig(id, forceRequest=false)] *)
Definition getImageConfig (id : value) (forceRequest : bool) : M value :=
  if negb (String.eqb (typeof id) "number") || lt0 id then pure VNull
  else
    let* configs := gets image_configs in
    match id with
    | VNumber n =>
        match JsMap.get n configs with
        | Some image_config =>
            (if forceRequest then emit (ImageInfo_requestData image_config)
             else pure tt);;
            pure (VImageConfig image_config)
        | None => pure VNull
        end
    | _ => pure VNull
    end.

(** [getSelectedImageConfig()] *)
Definition getSelectedImageConfig : M value :=
  let* selected := gets selected_config in
  if negb (String.eqb (typeof selected) "number") then pure VNull
  else getImageConfig selected false.

(** [removeImageConfig(image_config_or_id)] *)
Definition removeImageConfig (image_config_or_id : value) : M value :=
  let* conf :=
    (if instanceof_ImageConfig image_config_or_id
     then pure image_config_or_id
     else if String.eqb (typeof image_config_or_id) "number"
     then
       let* configs := gets image_configs in
       match image_config_or_id with
       | VNumber n =>
           pure (from_option VImageConfig VUndefined (JsMap.get n configs))
       | _ => pure VNull
       end
     else pure VNull) in
  match conf with
  | VImageConfig c =>
      (* take out of map *)
      assign (fun ctx =>
        with_image_configs
          (JsMap.delete (ImageConfig.id c) (image_configs ctx)) ctx);;
      (* deselect if we were selected *)
      let* selId := getSelectedImageConfig in
      (if truthy selId && strict_equals selId (VNumber (ImageConfig.id c))
       then assign (with_selected_config VNull)
       else pure tt);;
      (* call unbind and wipe reference *)
      emit (ImageConfig_unbind c);;
      pure VUndefined
  | _ =>
      (* neither reference nor valid id *)
      pure VUndefined
  end.

(** [selectConfig(id=null)] *)
Definition selectConfig (id : value) : M value :=
  let id := default_param id VNull in
  let* configs := gets image_configs in
  if negb (String.eqb (typeof id) "number") || lt0 id ||
     negb (match id with
           | VNumber n => JsMap.has n configs
           | _ => false
           end)
  then pure VNull
  else
    assign (with_selected_config id);;
    let* mdi := gets useMDI in
    (if mdi then
       let* selected := gets selected_config in
       publish IMAGE_CONFIG_SELECT selected
     else pure VUndefined);;
    pure VUndefined.

(** [for (let [id, conf] of this.image_configs)
       this.removeImageConfig(id, conf)]:
    the iterator walks the entries in insertion order and passes over those
    that were deleted before it reached them; the body adds none. *)
Fixpoint removeImageConfigs (entries : list (number * ImageConfig))
  : M unit :=
  match entries with
  | [] => pure tt
  | (id, _) :: rest =>
      let* configs := gets image_configs in
      (if JsMap.has id configs then removeImageConfig (VNumber id)
       else pure VUndefined);;
      removeImageConfigs rest
  end.

(** [addImageConfig(image_id)] *)
Definition addImageConfig (image_id : value) : M value :=
  if negb (String.eqb (typeof image_id) "number") || lt0 image_id
  then pure VNull
  else
    (* we do not keep the other configs around unless we are in MDI mode *)
    let* mdi := gets useMDI in
    (if negb mdi then
       let* configs := gets image_configs in removeImageConfigs configs
     else pure tt);;
    match image_id with
    | VNumber n =>
        let* image_config := new_ImageConfig n in
        (* store the image config in the map and make it the selected one *)
        assign (fun ctx =>
          with_image_configs
            (JsMap.set (ImageConfig.id image_config) image_config
               (image_configs ctx)) ctx);;
        selectConfig (VNumber (ImageConfig.id image_config));;
        emit (ImageConfig_bind image_config);;
        pure (VImageConfig image_config)
    | _ => pure VNull
    end.

(** [addKeyListener(key, action)] *)
Definition addKeyListener (key action : value) : M value :=
  if negb (String.eqb (typeof key) "number") ||
     negb (String.eqb (typeof action) "function")
  then pure VUndefined
  else
    match key, action with
    | VNumber k, VFunction f =>
        assign (fun ctx =>
          with_key_listeners (JsMap.set k f (key_listeners ctx)) ctx);;
        pure VUndefined
    | _, _ => pure VUndefined
    end.

(** [removeKeyListener(key)] *)
Definition removeKeyListener (key : value) : M value :=
  if negb (String.eqb (typeof key) "number") then pure VUndefined
  else
    match key with
    | VNumber k =>
        assign (fun ctx =>
          with_key_listeners (JsMap.delete k (key_listeners ctx)) ctx);;
        pure VUndefined
    | _ => pure VUndefined
    end.

(** The [server] that the constructor works out of
    [optParams[REQUEST_PARAMS.SERVER]]. *)
Definition normalize_server (server : value) : string :=
  match server with
  | VString server =>
      if str_length server =? 0 then ""
      else
        (* check for localhost and if we need to prefix for requests *)
        let isLocal :=
          (indexOf server "localhost" >=? 0) ||
          (indexOf server "127.0.0.1" >=? 0) in
        let minLen := str_length "http://" in
        let pos :=
          if indexOf server "localhost" >=? minLen
          then indexOf server "localhost"
          else indexOf server "127.0.0.1" in
        if isLocal && (pos <? minLen)
        then String.append "http://" server
        else server
  | _ => "" (* typeof server !== 'string' *)
  end.

(** [image_config.id], read off what [addImageConfig] returned. *)
Definition get_id (image_config : value) : M value :=
  match image_config with
  | VImageConfig c => pure (VNumber (ImageConfig.id c))
  | VUndefined | VNull => throw TypeError
  | _ => pure VUndefined
  end.

(** [establishKeyDownListener()]: we do this only once. *)
Definition establishKeyDownListener : M value :=
  fun w =>
    if window_onkeydown w then Normal VUndefined w
    else Normal VUndefined
           {| this := this w; log := log w; instances := instances w;
              window_onkeydown := true |}.

(** [new Context(eventbus, initial_image_id, optParams)]; the object built
    is [this] of the world the constructor completes in.  An absent
    [optParams] is [None]. *)
Definition constructor (eventbus initial_image_id : value)
    (optParams : option (gmap string value)) : M value :=
  let eventbus := default_param eventbus VNull in
  let initial_image_id := default_param initial_image_id VNull in
  let optParams := default ∅ optParams in
  assign (fun _ => Context_fields);;
  (* event aggregator is mandatory *)
  if instanceof_EventAggregator (VString (typeof eventbus))
  then throw (Thrown (VString "Invalid EventAggregator given!"))
  else
    let server :=
      normalize_server
        (default VUndefined (optParams !! REQUEST_PARAMS_SERVER)) in
    let optParams := base.delete REQUEST_PARAMS_SERVER optParams in
    assign (with_eventbus eventbus);;
    assign (with_server (VString server));;
    assign (with_initParams optParams);;
    (* we set the initial image as the default (if given) *)
    let* initial_image_config := addImageConfig initial_image_id in
    let* id := get_id initial_image_config in
    assign (with_selected_config id);;
    (* set up key listener *)
    establishKeyDownListener.

(** Calling a function object with the event. *)
Definition call (f : Fn) (event : KeyboardEvent) : M value :=
  match f with
  | RegionsKeyHandler action =>
      let* show := gets show_regions in
      if negb show || negb (ctrlKey event) then pure VUndefined
      else
        emit (Regions_apply (func action) (args action));;
        match Method_throws (func action) with
        | Some e => throw e
        | None => pure VUndefined
        end
  | Native name =>
      emit (Function_call name event);;
      match Function_throws name with
      | Some e => throw e
      | None => pure VUndefined
      end
  end.

(** The listener that [establishKeyDownListener] puts on
    [window.onkeydown]. *)
Definition onkeydown (event : KeyboardEvent) : M value :=
  try_catch
    ((* only process CTRL+KEY combinations, and not in an input field *)
     let* skip :=
       (if negb (ctrlKey event) then pure true
        else match target_tagName event with
             | Some tagName =>
                 pure (String.eqb (toUpperCase tagName) "INPUT")
             | None => throw TypeError
             end) in
     if (skip : bool) then pure VUndefined
     else
       let* listeners := gets key_listeners in
       match JsMap.get (keyCode event) listeners with
       | Some keyHandler =>
           emit (Event_preventDefault event);;
           call keyHandler event;;
           pure (VBoolean false)
       | None => pure VUndefined
       end).

(** A keydown event reaching [window]. *)
Definition keydown (event : KeyboardEvent) : M value :=
  fun w => if window_onkeydown w then onkeydown event w
           else Normal VUndefined w.


End ContextClass.

(** ** class Regions *)

Module Regions.

(** [key_actions]: a list of keys we want to listen for. *)
Definition key_actions : list KeyAction :=
  [ mkKeyAction (Int 68) deleteShapes None;                 (* ctrl - d *)
    mkKeyAction (Int 85) deleteShapes (Some [false; true]); (* ctrl - u *)
    mkKeyAction (Int 83) saveShapes None;                   (* ctrl - s *)
    mkKeyAction (Int 89) redoHistory None;                  (* ctrl - y *)
    mkKeyAction (Int 90) undoHistory None ].                (* ctrl - z *)

(** [attached()] *)
Definition attached : M value :=
  array_map
    (fun action =>
       addKeyListener (VNumber (key action))
         (VFunction (RegionsKeyHandler action)))
    key_actions.

(** [detached()] *)
Definition detached : M value :=
  array_map (fun action => removeKeyListener (VNumber (key action)))
    key_actions.

End Regions.

(** The fields of a [Regions] instance that its lifecycle hooks read and
    write, and the two hooks; the instance is passed along. *)
Module RegionsLifecycle.

Record t : Type := mk {
  config_id : value;
  regions_info : value
}.

Section Hooks.

(** [img_conf.regions_info], as the [ImageConfig] at hand answers it. *)
Variable ImageConfig_regions_info : ImageConfig -> value.

(** [bind()] *)
Definition bind (regions : t) : M t :=
  let* img_conf := getImageConfig (config_id regions) false in
  if truthy img_conf &&
     truthy (match img_conf with
             | VImageConfig c => ImageConfig_regions_info c
             | _ => VUndefined
             end)
  then
    match img_conf with
    | VImageConfig c =>
        pure {| config_id := config_id regions;
                regions_info := ImageConfig_regions_info c |}
    | _ => pure regions
    end
  else pure regions.

(** [unbind()] *)
Definition unbind (regions : t) : M t :=
  pure {| config_id := config_id regions; regions_info := VNull |}.

End Hooks.
End RegionsLifecycle.

(** ** Sample inputs *)

(** A page that has built nothing yet. *)
Definition World_initial : World :=
  {| this := Context_fields; log := []; instances := 0;
     window_onkeydown := false |}.

(** Ids counted up from zero, as a sample of what [ImageConfig] may
    assign. *)
Definition counting_ids (n : nat) : number := Int (Z.of_nat n).

(** A config with id 4 for image 9, and a page whose context holds it
    alone, with nothing selected. *)
Definition sample_config : ImageConfig := ImageConfig.mk 0 (Int 4) (Int 9).

Definition World_one_config : World :=
  {| this := with_image_configs [(Int 4, sample_config)] Context_fields;
     log := []; instances := 1; window_onkeydown := true |}.

(** A context in MDI mode whose event bus is [null], as the constructor
    lets it be, on a page that has built nothing yet. *)
Definition World_MDI_no_bus : World :=
  {| this :=
       {| eventbus := VNull; server := VString ""; image_configs := [];
          selected_config := VNull; useMDI := true; show_regions := false;
          show_scalebar := false; key_listeners := []; initParams := ∅ |};
     log := []; instances := 0; window_onkeydown := true |}.

(** A page whose keydown listener is in place. *)
Definition World_listening : World :=
  {| this := Context_fields; log := []; instances := 0;
     window_onkeydown := true |}.

(** An [ImageConfig] that no context holds. *)
Definition foreign_config : ImageConfig := ImageConfig.mk 0 (Int 7) (Int 1).

(** ** Properties stated over the model *)

(** [selected_config] is unset or names an entry of [image_configs]. *)
Definition selected_config_valid (ctx : Context) : Prop :=
  selected_config ctx = VNull \/
  exists n, selected_config ctx = VNumber n /\
            is_Some (JsMap.get n (image_configs ctx)).

(** Every entry of [image_configs] sits under the id of its config. *)
Definition keyed_by_id (m : list (number * ImageConfig)) : Prop :=
  Forall (fun entry => ImageConfig.id (snd entry) = fst entry) m.

(** What an argument of [removeImageConfig] resolves to: the instance
    itself, or the entry under a number. *)
Definition resolve (v : value) (ctx : Context) : option ImageConfig :=
  match v with
  | VImageConfig c => Some c
  | VNumber n => JsMap.get n (image_configs ctx)
  | _ => None
  end.

(** The value is a key of [image_configs]. *)
Definition is_key (v : value) (ctx : Context) : Prop :=
  match v with
  | VNumber n => is_Some (JsMap.get n (image_configs ctx))
  | _ => False
  end.

(** The five key codes of [Regions.key_actions]. *)
Definition Regions_keys : list number :=
  [Int 68; Int 85; Int 83; Int 89; Int 90].

(** The world after [conf] was taken out by [removeImageConfig]. *)
Definition removed (conf : ImageConfig) (w : World) : World :=
  {| this :=
       with_image_configs
         (JsMap.delete (ImageConfig.id conf) (image_configs (this w)))
         (this w);
     log := log w ++ [ImageConfig_unbind conf];
     instances := instances w;
     window_onkeydown := window_onkeydown w |}.

(** The calls of a run of [addImageConfig] over a list of image ids: the
    world each call starts in and what it completes with; the run ends at
    the first call that throws. *)
Fixpoint addImageConfigs (ImageConfig_id : nat -> number)
    (image_ids : list Z) (w : World) : list (World * Completion value) :=
  match image_ids with
  | [] => []
  | image_id :: rest =>
      let r := addImageConfig ImageConfig_id (VNumber (Int image_id)) w in
      (w, r) :: match r with
                | Normal _ w' => addImageConfigs ImageConfig_id rest w'
                | Throw _ _ => []
                end
  end.

(** The world after [addImageConfig] has put [conf] in place of all the
    configs held before, outside MDI mode. *)
Definition replaced (conf : ImageConfig) (w : World) : World :=
  {| this :=
       with_selected_config
         (if number_ltb0 (ImageConfig.id conf)
          then selected_config (this w)
          else VNumber (ImageConfig.id conf))
         (with_image_configs [(ImageConfig.id conf, conf)] (this w));
     log := log w ++
            map ImageConfig_unbind (JsMap.values (image_configs (this w))) ++
            [ImageConfig_new conf; ImageConfig_bind conf];
     instances := S (instances w);
     window_onkeydown := window_onkeydown w |}.

(** The world a call ends in, however it completes. *)
Definition world_of {A} (r : Completion A) : World :=
  match r with
  | Normal _ w => w
  | Throw _ w => w
  end.

(** What C5 asks of one call of a run: started in [fst step] for
    [image_id], it returns the config it created, which is then the only
    entry of the map, after every config held before was unbound. *)
Definition single_document_step (ImageConfig_id : nat -> number)
    (image_id : Z) (step : World * Completion value) : Prop :=
  let before := fst step in
  let conf :=
    ImageConfig.mk (instances before) (ImageConfig_id (instances before))
      (Int image_id) in
  exists after,
    snd step = Normal (VImageConfig conf) after /\
    image_configs (this after) = [(ImageConfig.id conf, conf)] /\
    useMDI (this after) = false /\
    log after =
      log before ++
      map ImageConfig_unbind (JsMap.values (image_configs (this before))) ++
      [ImageConfig_new conf; ImageConfig_bind conf].

(** The entries of a map under one key. *)
Definition entries_of {V} (k : number) (m : list (number * V))
  : list (number * V) :=
  filter (fun entry => fst entry = k) m.

(** The world after a call that only made [c] unbind. *)
Definition unbound (c : ImageConfig) (w : World) : World :=
  {| this := this w; log := log w ++ [ImageConfig_unbind c];
     instances := instances w; window_onkeydown := window_onkeydown w |}.

(** The value is a key of [key_listeners]. *)
Definition is_listener (v : value) (ctx : Context) : Prop :=
  match v with
  | VNumber k => is_Some (JsMap.get k (key_listeners ctx))
  | _ => False
  end.

(** The fields as the constructor has them when it turns to the initial
    image: the event bus as given, the server worked out, the parameters
    without the server key. *)
Definition Context_constructed (SERVER : string) (eventbus : value)
    (optParams : option (gmap string value)) : Context :=
  with_initParams (base.delete SERVER (default ∅ optParams))
    (with_server
       (VString
          (normalize_server
             (default VUndefined (default ∅ optParams !! SERVER))))
       (with_eventbus (default_param eventbus VNull) Context_fields)).

(** A world with other fields of [this], and calls added to the log. *)
Definition after (ctx : Context) (calls : list Effect) (w : World) : World :=
  {| this := ctx; log := log w ++ calls; instances := instances w;
     window_onkeydown := window_onkeydown w |}.

(** The same page with that config selected. *)
Definition World_selected : World :=
  world_of (selectConfig (VNumber (Int 4)) World_one_config).

(** ** Tactics *)

(** Unfolding the monad in a goal. *)
Ltac run :=
  unfold andThen, pure, gets, assign, emit, throw, with_this; simpl.

(** Membership in the five key codes, case by case. *)
Ltac by_key_code k :=
  destruct (decide (Int 68 = k)) as [<-|?]; [reflexivity |];
  destruct (decide (Int 85 = k)) as [<-|?]; [reflexivity |];
  destruct (decide (Int 83 = k)) as [<-|?]; [reflexivity |];
  destruct (decide (Int 89 = k)) as [<-|?]; [reflexivity |];
  destruct (decide (Int 90 = k)) as [<-|?]; [reflexivity |].

(** ** Facts about [Map] *)

Module JsMapFacts.
Section Facts.
Context {K V : Type} `{EqDecision K}.
Implicit Types (k : K) (v : V) (m : list (K * V)).

Lemma get_set_eq k v m : JsMap.get k (JsMap.set k v m) = Some v.
Proof.
  induction m as [|[k' v'] m IH]; simpl.
  - by rewrite decide_True.
  - destruct (decide (k = k')) as [->|Hne]; simpl.
    + by rewrite decide_True.
    + by rewrite decide_False.
Qed.

Lemma get_set_ne k k' v m :
  k <> k' -> JsMap.get k' (JsMap.set k v m) = JsMap.get k' m.
Proof.
  intros Hne. induction m as [|[k0 v0] m IH]; simpl.
  - rewrite decide_False; [done | congruence].
  - destruct (decide (k = k0)) as [->|Hk]; simpl.
    + by rewrite !decide_False by congruence.
    + destruct (decide (k' = k0)); [done | apply IH].
Qed.

Lemma get_delete_eq k m : JsMap.get k (JsMap.delete k m) = None.
Proof.
  induction m as [|[k' v'] m IH]; simpl; [done |].
  destruct (decide (k = k')) as [->|Hne]; simpl; [done |].
  by rewrite decide_False.
Qed.

Lemma get_delete_ne k k' m :
  k <> k' -> JsMap.get k' (JsMap.delete k m) = JsMap.get k' m.
Proof.
  intros Hne. induction m as [|[k0 v0] m IH]; simpl; [done |].
  destruct (decide (k = k0)) as [->|Hk]; simpl.
  - by rewrite decide_False by congruence.
  - destruct (decide (k' = k0)); [done | apply IH].
Qed.

Lemma get_None_keys k m : JsMap.get k m = None <-> k ∉ JsMap.keys m.
Proof.
  induction m as [|[k' v'] m IH]; simpl.
  - split; [intros _; apply not_elem_of_nil | done].
  - rewrite not_elem_of_cons.
    destruct (decide (k = k')) as [->|Hne]; split; try done.
    + intros [Hk _]. by destruct Hk.
    + intros Hg. split; [done | by apply IH].
    + intros [_ Hk]. by apply IH.
Qed.

Lemma get_Some_elem k v m : JsMap.get k m = Some v -> (k, v) ∈ m.
Proof.
  induction m as [|[k' v'] m IH]; simpl; [done |].
  destruct (decide (k = k')) as [->|Hne].
  - intros [= ->]. apply list_elem_of_here.
  - intros Hg. apply list_elem_of_further, IH, Hg.
Qed.

(** Deleting a key that is not there changes nothing. *)
Lemma delete_absent k m : JsMap.get k m = None -> JsMap.delete k m = m.
Proof.
  induction m as [|[k' v'] m IH]; simpl; [done |].
  destruct (decide (k = k')) as [->|Hne]; [done |].
  intros Hg. by rewrite IH.
Qed.

Lemma keys_delete_subseteq k m : JsMap.keys (JsMap.delete k m) ⊆ JsMap.keys m.
Proof.
  induction m as [|[k' v'] m IH]; simpl; [done |].
  destruct (decide (k = k')) as [->|Hne]; simpl.
  - intros x Hx. apply elem_of_cons. right. by apply IH.
  - intros x. rewrite !elem_of_cons. intros [->|Hx]; [by left |].
    right. by apply IH.
Qed.

(** [set] keeps the keys of a map that has the key, and puts a new key
    last. *)
Lemma keys_set k v m :
  JsMap.keys (JsMap.set k v m) =
  if JsMap.has k m then JsMap.keys m else (JsMap.keys m ++ [k])%list.
Proof.
  unfold JsMap.has. induction m as [|[k' v'] m IH]; simpl; [done |].
  destruct (decide (k = k')) as [->|Hne]; simpl; [done |].
  rewrite IH. by destruct (JsMap.get k m).
Qed.

Lemma unique_set k v m : JsMap.unique m -> JsMap.unique (JsMap.set k v m).
Proof.
  unfold JsMap.unique. intros Hm. rewrite keys_set. unfold JsMap.has.
  destruct (JsMap.get k m) eqn:Hg; [done |].
  apply NoDup_app. split; [done |]. split; [| apply NoDup_singleton].
  intros x Hx Hx'. apply list_elem_of_singleton in Hx'. subst x.
  by apply get_None_keys in Hg.
Qed.

Lemma unique_delete k m : JsMap.unique m -> JsMap.unique (JsMap.delete k m).
Proof.
  unfold JsMap.unique. induction m as [|[k' v'] m IH]; simpl; [done |].
  rewrite NoDup_cons. intros [Hk' Hm].
  destruct (decide (k = k')) as [->|Hne]; simpl; [by apply IH |].
  apply NoDup_cons. split; [| by apply IH].
  intros Hin. apply Hk'. by apply (keys_delete_subseteq k m).
Qed.

(** In a map that holds each key once, deleting the first key leaves the
    rest. *)
Lemma delete_head k v m :
  JsMap.unique ((k, v) :: m) -> JsMap.delete k ((k, v) :: m) = m.
Proof.
  unfold JsMap.unique. simpl. rewrite NoDup_cons. intros [Hk _].
  rewrite decide_True by done. apply delete_absent. by apply get_None_keys.
Qed.

(** How many entries sit under a key. *)
Lemma unique_count k m :
  JsMap.unique m ->
  List.length (filter (fun entry => fst entry = k) m) =
  if JsMap.has k m then 1%nat else 0%nat.
Proof.
  unfold JsMap.unique, JsMap.has.
  induction m as [|[k' v'] m IH]; simpl; [done |].
  rewrite NoDup_cons. intros [Hk' Hm].
  rewrite filter_cons. simpl.
  destruct (decide (k = k')) as [->|Hne].
  - rewrite decide_True by done. simpl.
    rewrite (IH Hm). apply get_None_keys in Hk'. by rewrite Hk'.
  - rewrite decide_False by congruence. by apply IH.
Qed.

End Facts.
End JsMapFacts.

(** ** Facts about the methods of [Context] *)

Lemma with_this_this w : with_this (this w) w = w.
Proof. by destruct w. Qed.

(** A lookup without [forceRequest] reads and changes nothing. *)
Lemma getImageConfig_run id w :
  getImageConfig id false w =
  Normal
    (match id with
     | VNumber n =>
         if number_ltb0 n then VNull
         else from_option VImageConfig VNull
                (JsMap.get n (image_configs (this w)))
     | _ => VNull
     end) w.
Proof.
  unfold getImageConfig. destruct id as [| | |n| | | | |]; try done.
  simpl. destruct (number_ltb0 n); [done |]. run.
  by destruct (JsMap.get n (image_configs (this w))).
Qed.

(** [getSelectedImageConfig] hands back an [ImageConfig] or [null], never an
    id. *)
Lemma getSelectedImageConfig_run w :
  exists r, getSelectedImageConfig w = Normal r w /\
            (r = VNull \/ exists c, r = VImageConfig c).
Proof.
  unfold getSelectedImageConfig. run.
  destruct (selected_config (this w)) as [| | |n| | | | |] eqn:Hs; simpl;
    try (eexists; split; [reflexivity | by left]).
  rewrite getImageConfig_run.
  destruct (number_ltb0 n); [eexists; split; [reflexivity | by left] |].
  destruct (JsMap.get n (image_configs (this w))) as [c|]; simpl;
    eexists; (split; [reflexivity |]); [right; by exists c | by left].
Qed.

(** The comparison of [removeImageConfig] that is to find the removed config
    selected never holds: an object is not a number. *)
Lemma selId_never_equals_id r n :
  (r = VNull \/ exists c, r = VImageConfig c) ->
  truthy r && strict_equals r (VNumber n) = false.
Proof. intros [->|[c ->]]; [done | by destruct n]. Qed.

(** All that [removeImageConfig] does. *)
Lemma removeImageConfig_run v w :
  removeImageConfig v w =
  Normal VUndefined
    (match resolve v (this w) with
     | Some conf => removed conf w
     | None => w
     end).
Proof.
  assert (Hconf : forall conf,
    (let* selId := getSelectedImageConfig in
     (if truthy selId &&
         strict_equals selId (VNumber (ImageConfig.id conf))
      then assign (with_selected_config VNull) else pure tt);;
     emit (ImageConfig_unbind conf);; pure VUndefined)
      (with_this
         (with_image_configs
            (JsMap.delete (ImageConfig.id conf) (image_configs (this w)))
            (this w)) w)
    = Normal VUndefined (removed conf w)).
  { intros conf. unfold andThen at 1.
    destruct (getSelectedImageConfig_run
      (with_this
         (with_image_configs
            (JsMap.delete (ImageConfig.id conf) (image_configs (this w)))
            (this w)) w)) as (r & -> & Hr).
    by rewrite (selId_never_equals_id _ _ Hr). }
  unfold removeImageConfig.
  destruct v as [| | |n| | |c| |]; try done.
  - simpl. unfold andThen at 1. unfold andThen at 1. run.
    destruct (JsMap.get n (image_configs (this w))) as [c|]; simpl; [| done].
    apply (Hconf c).
  - simpl. apply (Hconf c).
Qed.

(** [selectConfig] outside MDI mode: at most [selected_config] moves. *)
Lemma selectConfig_run_single v w :
  useMDI (this w) = false ->
  selectConfig v w =
  match default_param v VNull with
  | VNumber n =>
      if number_ltb0 n || negb (JsMap.has n (image_configs (this w)))
      then Normal VNull w
      else Normal VUndefined (with_this (with_selected_config (VNumber n) (this w)) w)
  | _ => Normal VNull w
  end.
Proof.
  intros Hmdi. unfold selectConfig.
  destruct (default_param v VNull) as [| | |n| | | | |]; try done.
  run. destruct (number_ltb0 n); [done |]. simpl.
  destruct (JsMap.has n (image_configs (this w))); [| done]. simpl.
  by rewrite Hmdi.
Qed.

(** A guard of [selectConfig] that fails leaves everything as it was, in
    either mode. *)
Lemma selectConfig_absent v w :
  ~ is_key v (this w) -> selectConfig v w = Normal VNull w.
Proof.
  intros Hkey. unfold selectConfig.
  destruct v as [| | |n| | | | |]; try done.
  run. destruct (number_ltb0 n); [done |]. simpl. unfold JsMap.has.
  simpl in Hkey.
  destruct (JsMap.get n (image_configs (this w))); [| done].
  destruct Hkey. by eexists.
Qed.

(** The loop of [addImageConfig] over a well-formed map empties it, and
    unbinds every config on the way, in the order of the map. *)
Lemma removeImageConfigs_run m : forall w,
  image_configs (this w) = m ->
  JsMap.unique m ->
  keyed_by_id m ->
  removeImageConfigs m w =
  Normal tt
    {| this := with_image_configs [] (this w);
       log := log w ++ map ImageConfig_unbind (JsMap.values m);
       instances := instances w;
       window_onkeydown := window_onkeydown w |}.
Proof.
  induction m as [|[k c] rest IH]; intros w Hm Huniq Hkeyed.
  - simpl. unfold pure. rewrite app_nil_r, <- Hm.
    destruct w as [[] ? ? ?]; reflexivity.
  - simpl. unfold andThen at 1. unfold gets at 1. rewrite Hm.
    unfold JsMap.has. simpl. rewrite decide_True by done.
    unfold andThen at 1. rewrite removeImageConfig_run. simpl.
    rewrite Hm. simpl. rewrite decide_True by done.
    apply Forall_cons in Hkeyed as [Hid Hkeyed]. simpl in Hid.
    assert (Hw' : image_configs (this (removed c w)) = rest).
    { simpl. rewrite Hm, Hid. by apply JsMapFacts.delete_head. }
    rewrite (IH (removed c w) Hw'); [| | done].
    + simpl. by rewrite <- app_assoc.
    + unfold JsMap.unique in *. simpl in Huniq. by apply NoDup_cons in Huniq as [_ ?].
Qed.

Section AddImageConfig.
Variable ImageConfig_id : nat -> number.

(** One call of [addImageConfig] outside MDI mode, on a well-formed map. *)
Lemma addImageConfig_run_single n w :
  number_ltb0 n = false ->
  useMDI (this w) = false ->
  JsMap.unique (image_configs (this w)) ->
  keyed_by_id (image_configs (this w)) ->
  let conf :=
    ImageConfig.mk (instances w) (ImageConfig_id (instances w)) n in
  addImageConfig ImageConfig_id (VNumber n) w =
  Normal (VImageConfig conf) (replaced conf w).
Proof.
  intros Hn Hmdi Huniq Hkeyed conf. unfold addImageConfig. simpl.
  rewrite Hn.
  unfold andThen at 1. unfold gets at 1. rewrite Hmdi. simpl.
  unfold andThen at 1. unfold andThen at 1. unfold gets at 1.
  rewrite (removeImageConfigs_run _ w eq_refl Huniq Hkeyed).
  unfold andThen at 1. unfold new_ImageConfig at 1. simpl.
  unfold andThen at 1. unfold assign at 1. simpl.
  unfold andThen at 1. rewrite selectConfig_run_single by done. simpl.
  fold conf. unfold JsMap.has. simpl. rewrite decide_True by done.
  unfold replaced. rewrite <- app_assoc.
  change (ImageConfig.id conf) with (ImageConfig_id (instances w)).
  destruct (number_ltb0 (ImageConfig_id (instances w))); run;
    rewrite <- !app_assoc; reflexivity.
Qed.

(** Whatever it is handed, [addImageConfig] leaves the fields other than
    the map and the selection alone and, outside MDI mode, does not
    throw. *)
Lemma addImageConfig_single_fields v w :
  useMDI (this w) = false ->
  JsMap.unique (image_configs (this w)) ->
  keyed_by_id (image_configs (this w)) ->
  exists r w',
    addImageConfig ImageConfig_id v w = Normal r w' /\
    (r = VNull \/ exists conf, r = VImageConfig conf) /\
    eventbus (this w') = eventbus (this w) /\
    server (this w') = server (this w) /\
    initParams (this w') = initParams (this w) /\
    key_listeners (this w') = key_listeners (this w) /\
    window_onkeydown w' = window_onkeydown w.
Proof.
  intros Hmdi Huniq Hkeyed.
  destruct v as [| | |n| | | | |];
    try (exists VNull, w; split_and!; [reflexivity | by left | done..]).
  destruct (number_ltb0 n) eqn:Hn.
  - exists VNull, w. unfold addImageConfig. simpl. rewrite Hn.
    split_and!; [reflexivity | by left | done..].
  - do 2 eexists. split; [by apply addImageConfig_run_single |].
    split_and!; [right; by eexists | done..].
Qed.

End AddImageConfig.

(** ** Removal and the selection *)

(** [removeImageConfig] never touches [selected_config], whatever it is
    handed. *)
Lemma removeImageConfig_selected_config v w :
  exists w', removeImageConfig v w = Normal VUndefined w' /\
             selected_config (this w') = selected_config (this w).
Proof.
  rewrite removeImageConfig_run. eexists. split; [reflexivity |].
  by destruct (resolve v (this w)).
Qed.

(** C1, at the input where the code departs from it: a context built for
    image 5 holds one config, under id 0, and has it selected; after
    [removeImageConfig(0)] the map is empty and [selected_config] is still
    0, not unset. *)
Theorem removeImageConfig_selected_not_cleared :
  exists w w',
    constructor counting_ids "SERVER" (VEventAggregator 0) (VNumber (Int 5))
      None World_initial = Normal VUndefined w /\
    selected_config (this w) = VNumber (Int 0) /\
    JsMap.has (Int 0) (image_configs (this w)) = true /\
    removeImageConfig (VNumber (Int 0)) w = Normal VUndefined w' /\
    image_configs (this w') = [] /\
    selected_config (this w') = VNumber (Int 0).
Proof. do 2 eexists. repeat split; vm_compute; reflexivity. Qed.

(** The part of C1 that the code keeps: removing a config other than the
    selected one leaves [selected_config] as it was. *)
Lemma removeImageConfig_other_keeps_selected n w :
  selected_config (this w) <> VNumber n ->
  exists w', removeImageConfig (VNumber n) w = Normal VUndefined w' /\
             selected_config (this w') = selected_config (this w).
Proof. intros _. apply removeImageConfig_selected_config. Qed.

(** C2, at the input where the code departs from it: the same context
    satisfies the invariant before [removeImageConfig(0)] and not after,
    where [selected_config] names a key that is gone. *)
Theorem removeImageConfig_breaks_selected_config_valid :
  exists w w',
    constructor counting_ids "SERVER" (VEventAggregator 0) (VNumber (Int 5))
      None World_initial = Normal VUndefined w /\
    selected_config_valid (this w) /\
    removeImageConfig (VNumber (Int 0)) w = Normal VUndefined w' /\
    ~ selected_config_valid (this w').
Proof.
  do 2 eexists. split; [vm_compute; reflexivity |].
  split; [| split; [vm_compute; reflexivity |]].
  - right. exists (Int 0). split; [reflexivity | by eexists].
  - intros [Hnull | (n & Hsel & Hget)]; simpl in *; [done |].
    by destruct Hget.
Qed.

(** The operations that keep the invariant of C2: lookups change nothing,
    and [selectConfig] selects only what is in the map. *)
Lemma getSelectedImageConfig_pure w :
  exists r, getSelectedImageConfig w = Normal r w.
Proof. destruct (getSelectedImageConfig_run w) as (r & Hr & _). eauto. Qed.

Lemma selectConfig_selected_config_valid v w r w' :
  selected_config_valid (this w) ->
  selectConfig v w = Normal r w' \/ (exists e, selectConfig v w = Throw e w') ->
  selected_config_valid (this w').
Proof.
  intros Hvalid. unfold selectConfig.
  destruct (default_param v VNull) as [| | |n| | | | |]; run;
    try (intros [[= _ <-] | [e [=]]]; exact Hvalid).
  destruct (number_ltb0 n); simpl;
    [intros [[= _ <-] | [e [=]]]; exact Hvalid |].
  unfold JsMap.has.
  destruct (JsMap.get n (image_configs (this w))) as [c|] eqn:Hget; simpl;
    [| intros [[= _ <-] | [e [=]]]; exact Hvalid].
  assert (Hgoal : forall l i k,
    selected_config_valid
      (this {| this := with_selected_config (VNumber n) (this w);
               log := l; instances := i; window_onkeydown := k |})).
  { intros. right. exists n. simpl. split; [done |]. rewrite Hget. by eexists. }
  destruct (useMDI (this w)); simpl.
  - unfold publish. run. destruct (eventbus (this w)); simpl;
      intros [[= _ <-] | [e [= _ <-]]]; apply Hgoal.
  - intros [[= _ <-] | [e [=]]]. apply Hgoal.
Qed.

(** ** Construction *)

(** The guard of the constructor tests [typeof eventbus], a string, for
    being an [EventAggregator]: it holds for no argument. *)
Lemma eventbus_guard_never_holds eventbus :
  instanceof_EventAggregator (VString (typeof eventbus)) = false.
Proof. reflexivity. Qed.

(** C3, at the inputs where the code departs from it: with [null], with a
    plain object and with no event bus at all, the constructor does not
    throw; it completes and keeps what it was given as its [eventbus]. *)
Theorem constructor_accepts_invalid_eventbus :
  (exists w,
     constructor counting_ids "SERVER" VNull (VNumber (Int 5)) None
       World_initial = Normal VUndefined w /\
     eventbus (this w) = VNull) /\
  (exists w,
     constructor counting_ids "SERVER" (VObject 0) (VNumber (Int 5)) None
       World_initial = Normal VUndefined w /\
     eventbus (this w) = VObject 0) /\
  (exists w,
     constructor counting_ids "SERVER" VUndefined (VNumber (Int 5)) None
       World_initial = Normal VUndefined w /\
     eventbus (this w) = VNull).
Proof. repeat split; eexists; split; vm_compute; reflexivity. Qed.

(** C4, at the input where the code departs from it: with a valid event bus
    and no initial image id (absent or [null]), whatever the parameters,
    [addImageConfig] returns [null] and the constructor throws a TypeError
    on reading its [id]; the key listener is not set up. *)
Theorem constructor_without_image_id_throws
    (ImageConfig_id : nat -> number) (SERVER : string) (bus : nat)
    (optParams : option (gmap string value)) (w : World) :
  exists w',
    constructor ImageConfig_id SERVER (VEventAggregator bus) VUndefined
      optParams w = Throw TypeError w' /\
    constructor ImageConfig_id SERVER (VEventAggregator bus) VNull
      optParams w = Throw TypeError w' /\
    image_configs (this w') = [] /\
    selected_config (this w') = VNull /\
    window_onkeydown w' = window_onkeydown w.
Proof.
  eexists. split_and!.
  - unfold constructor, addImageConfig, get_id. run. reflexivity.
  - unfold constructor, addImageConfig, get_id. run. reflexivity.
  - reflexivity.
  - reflexivity.
  - reflexivity.
Qed.

(** The part of C4 that the code keeps: with an initial image id the
    constructor completes, holding the one config it created, selected, and
    the key listener in place. *)
Lemma constructor_with_image_id
    (ImageConfig_id : nat -> number) (SERVER : string) (eventbus : value)
    (z : Z) (optParams : option (gmap string value)) (w : World) :
  0 <= z ->
  let conf :=
    ImageConfig.mk (instances w) (ImageConfig_id (instances w)) (Int z) in
  exists w',
    constructor ImageConfig_id SERVER eventbus (VNumber (Int z)) optParams w
      = Normal VUndefined w' /\
    image_configs (this w') = [(ImageConfig.id conf, conf)] /\
    selected_config (this w') = VNumber (ImageConfig.id conf) /\
    window_onkeydown w' = true.
Proof.
  intros Hz conf. unfold constructor.
  rewrite eventbus_guard_never_holds. simpl.
  unfold andThen at 1. unfold assign at 1.
  unfold andThen at 1. unfold assign at 1.
  unfold andThen at 1. unfold assign at 1.
  unfold andThen at 1. unfold assign at 1.
  unfold andThen at 1.
  rewrite addImageConfig_run_single;
    [| by apply Z.ltb_ge | done | apply NoDup_nil_2 | apply Forall_nil_2].
  simpl. run. fold conf.
  destruct (window_onkeydown w) eqn:Hk; eexists; (split; [reflexivity |]);
    simpl; auto.
Qed.

(** ** The server of the requests *)

(** C7: the server worked out by the constructor is
    ["http://localhost:4064"] for ["localhost:4064"], the input itself for
    ["http://localhost:4064"] and for ["example.org"], and the empty string
    for an empty or absent parameter; and it is what the constructor puts in
    the [server] field, whatever else it is given and however it ends. *)
Theorem server_normalization :
  normalize_server (VString "localhost:4064") = "http://localhost:4064" /\
  normalize_server (VString "http://localhost:4064")
    = "http://localhost:4064" /\
  normalize_server (VString "example.org") = "example.org" /\
  normalize_server (VString "") = "" /\
  normalize_server VUndefined = "" /\
  forall (ImageConfig_id : nat -> number) (SERVER : string)
         (eventbus initial_image_id : value)
         (optParams : option (gmap string value)) (w : World),
    server
      (this
         (world_of
            (constructor ImageConfig_id SERVER eventbus initial_image_id
               optParams w))) =
    VString
      (normalize_server
         (default VUndefined (default ∅ optParams !! SERVER))).
Proof.
  split_and!; try reflexivity.
  intros ImageConfig_id SERVER eventbus initial_image_id optParams w.
  unfold constructor. rewrite eventbus_guard_never_holds.
  unfold andThen at 1. unfold assign at 1.
  unfold andThen at 1. unfold assign at 1.
  unfold andThen at 1. unfold assign at 1.
  unfold andThen at 1. unfold assign at 1.
  unfold andThen at 1.
  match goal with
  | |- context [addImageConfig _ ?v ?w0] =>
      destruct (addImageConfig_single_fields ImageConfig_id v w0)
        as (r & w' & -> & Hr & _ & Hserver & _);
        [done | apply NoDup_nil_2 | apply Forall_nil_2 |]
  end.
  simpl in Hserver.
  destruct Hr as [-> | [conf ->]]; run; [done |].
  by destruct (window_onkeydown w').
Qed.

(** ** One document at a time *)

(** C5: outside MDI mode, in a run of [addImageConfig] over non-negative
    integer image ids from a well-formed map, every call completes, and
    after it [image_configs] holds exactly the config that this call
    created, every config held before having been unbound before the new one
    was built and inserted. *)
Theorem addImageConfig_single_document
    (ImageConfig_id : nat -> number) (image_ids : list Z) (w : World) :
  useMDI (this w) = false ->
  JsMap.unique (image_configs (this w)) ->
  keyed_by_id (image_configs (this w)) ->
  Forall (fun image_id => 0 <= image_id) image_ids ->
  Forall2 (single_document_step ImageConfig_id) image_ids
    (addImageConfigs ImageConfig_id image_ids w).
Proof.
  intros Hmdi Huniq Hkeyed Hids. revert w Hmdi Huniq Hkeyed.
  induction Hids as [|image_id rest Hid _ IH]; intros w Hmdi Huniq Hkeyed;
    simpl; [constructor |].
  rewrite addImageConfig_run_single by (done || by apply Z.ltb_ge).
  constructor.
  - eexists. split; [reflexivity |]. simpl. by rewrite Hmdi.
  - apply IH; simpl.
    + done.
    + apply NoDup_singleton.
    + by apply Forall_singleton.
Qed.

Lemma addImageConfig_single_document_witness :
  (useMDI (this World_initial) = false /\
   JsMap.unique (image_configs (this World_initial)) /\
   keyed_by_id (image_configs (this World_initial)) /\
   Forall (fun image_id => 0 <= image_id) [5; 7]) /\
  Forall2 (single_document_step counting_ids) [5; 7]
    (addImageConfigs counting_ids [5; 7] World_initial).
Proof.
  assert (H : useMDI (this World_initial) = false /\
              JsMap.unique (image_configs (this World_initial)) /\
              keyed_by_id (image_configs (this World_initial)) /\
              Forall (fun image_id => 0 <= image_id) [5; 7]).
  { split_and!; [reflexivity | apply NoDup_nil_2 | apply Forall_nil_2 |].
    repeat constructor; lia. }
  split; [exact H |].
  destruct H as (H1 & H2 & H3 & H4).
  exact (addImageConfig_single_document counting_ids [5; 7] World_initial
           H1 H2 H3 H4).
Defined.

(** In MDI mode the configs held before stay. *)
Example addImageConfig_MDI_keeps :
  JsMap.keys
    (image_configs
       (this
          (world_of
             ((assign (fun ctx =>
                 {| eventbus := VEventAggregator 0; server := server ctx;
                    image_configs := image_configs ctx;
                    selected_config := selected_config ctx; useMDI := true;
                    show_regions := show_regions ctx;
                    show_scalebar := show_scalebar ctx;
                    key_listeners := key_listeners ctx;
                    initParams := initParams ctx |});;
               addImageConfig counting_ids (VNumber (Int 5));;
               addImageConfig counting_ids (VNumber (Int 7)))
                World_initial)))) = [Int 0; Int 1].
Proof. reflexivity. Qed.

(** ** Ids that are not there *)

(** C6 as stated fails for an instance: handed an [ImageConfig] that is in
    no map, [removeImageConfig] does not look it up and calls its [unbind]
    hook. *)
Lemma removeImageConfig_foreign_instance_unbinds :
  image_configs (this World_initial) = [] /\
  removeImageConfig (VImageConfig foreign_config) World_initial =
    Normal VUndefined (unbound foreign_config World_initial) /\
  log (unbound foreign_config World_initial)
    = [ImageConfig_unbind foreign_config] /\
  removeImageConfig (VImageConfig foreign_config) World_initial <>
    Normal VUndefined World_initial.
Proof. split_and!; done. Qed.

(** C6, amended: for a value that is no key of [image_configs],
    [getImageConfig] and [selectConfig] return [null] and change nothing
    and, unless the value is an [ImageConfig] instance, [removeImageConfig]
    returns [undefined] and changes nothing, no hook being called; for an
    instance whose id is no key, [removeImageConfig] leaves the context as it
    is and calls the [unbind] hook of that instance. *)
Theorem absent_id_noop (v : value) (w : World) :
  ~ is_key v (this w) ->
  getImageConfig v false w = Normal VNull w /\
  selectConfig v w = Normal VNull w /\
  match v with
  | VImageConfig conf =>
      JsMap.get (ImageConfig.id conf) (image_configs (this w)) = None ->
      removeImageConfig v w = Normal VUndefined (unbound conf w)
  | _ => removeImageConfig v w = Normal VUndefined w
  end.
Proof.
  intros Hkey. split_and!.
  - rewrite getImageConfig_run. destruct v as [| | |n| | | | |]; try done.
    simpl in Hkey. destruct (number_ltb0 n); [done |].
    destruct (JsMap.get n (image_configs (this w))); [| done].
    destruct Hkey. by eexists.
  - by apply selectConfig_absent.
  - destruct v as [| | |n| | |conf| |];
      try (by rewrite removeImageConfig_run).
    + rewrite removeImageConfig_run. simpl in *.
      destruct (JsMap.get n (image_configs (this w))); [| done].
      destruct Hkey. by eexists.
    + intros Hget. rewrite removeImageConfig_run. simpl.
      unfold removed, unbound. rewrite (JsMapFacts.delete_absent _ _ Hget).
      by destruct w as [[] ? ? ?].
Qed.

Lemma absent_id_noop_witness :
  (~ is_key (VNumber (Int 3)) (this World_initial) /\
   getImageConfig (VNumber (Int 3)) false World_initial
     = Normal VNull World_initial /\
   selectConfig (VNumber (Int 3)) World_initial
     = Normal VNull World_initial /\
   removeImageConfig (VNumber (Int 3)) World_initial
     = Normal VUndefined World_initial) /\
  (~ is_key (VImageConfig foreign_config) (this World_initial) /\
   removeImageConfig (VImageConfig foreign_config) World_initial
     = Normal VUndefined (unbound foreign_config World_initial)).
Proof.
  assert (H : ~ is_key (VNumber (Int 3)) (this World_initial)).
  { simpl. intros [c Hc]. discriminate Hc. }
  assert (H' : ~ is_key (VImageConfig foreign_config) (this World_initial)).
  { simpl. intros []. }
  split.
  - split; [exact H |].
    exact (absent_id_noop (VNumber (Int 3)) World_initial H).
  - split; [exact H' |].
    destruct (absent_id_noop (VImageConfig foreign_config) World_initial H')
      as (_ & _ & Hremove).
    exact (Hremove eq_refl).
Defined.

(** ** Key listeners *)


(** A map that holds each key once has at most one entry under a key. *)
Lemma unique_at_most_one {V} (k : number) (m : list (number * V)) :
  JsMap.unique m -> (List.length (entries_of k m) <= 1)%nat.
Proof.
  intros Hm. unfold entries_of. rewrite (JsMapFacts.unique_count k m Hm).
  destruct (JsMap.has k m); lia.
Qed.

(** [addKeyListener] with a number and a function sets the entry. *)
Lemma addKeyListener_run (k : number) (f : Fn) (w : World) :
  addKeyListener (VNumber k) (VFunction f) w =
  Normal VUndefined
    (with_this
       (with_key_listeners (JsMap.set k f (key_listeners (this w))) (this w))
       w).
Proof. reflexivity. Qed.



(** What the dispatch of C8 leaves in the log when [g] is a function of
    another component: the default action suppressed and [g] called, and no
    other call. *)
Lemma onkeydown_calls_registered
    (Function_throws : nat -> option Exception)
    (Method_throws : Method -> option Exception)
    (event : KeyboardEvent) (tagName : string) (name : nat) (w : World) :
  ctrlKey event = true ->
  target_tagName event = Some tagName ->
  String.eqb (toUpperCase tagName) "INPUT" = false ->
  JsMap.get (keyCode event) (key_listeners (this w)) = Some (Native name) ->
  exists r,
    onkeydown Function_throws Method_throws event w =
    Normal r
      {| this := this w;
         log := log w ++ [Event_preventDefault event;
                          Function_call name event];
         instances := instances w;
         window_onkeydown := window_onkeydown w |} /\
    r = match Function_throws name with
        | Some _ => VUndefined
        | None => VBoolean false
        end.
Proof.
  intros Hctrl Htarget Hinput Hget.
  unfold onkeydown, try_catch. unfold andThen at 1.
  rewrite Hctrl, Htarget. simpl. rewrite Hinput.
  unfold andThen at 1. unfold gets at 1. rewrite Hget. run.
  unfold andThen, emit. simpl. rewrite <- app_assoc. simpl.
  destruct (Function_throws name); eexists; split; reflexivity.
Qed.

(** C9 as stated fails for a number that is no integer: [NaN] passes the
    guard, and the handler is registered under it. *)
Lemma addKeyListener_NaN_registers :
  isInteger NaN = false /\
  key_listeners
    (this (world_of
       (addKeyListener (VNumber NaN) (VFunction (Native 0)) World_initial)))
    = [(NaN, Native 0)] /\
  addKeyListener (VNumber NaN) (VFunction (Native 0)) World_initial <>
    Normal VUndefined World_initial.
Proof. split_and!; done. Qed.

(** C9, amended: when the code is not a number ([typeof] other than
    ['number']) or the handler is not a function, [addKeyListener] returns
    [undefined] and changes nothing. *)
Theorem addKeyListener_invalid_noop (key action : value) (w : World) :
  typeof key <> "number" \/ typeof action <> "function" ->
  addKeyListener key action w = Normal VUndefined w.
Proof.
  intros Hguard. unfold addKeyListener.
  destruct key as [| | |k| | | | |]; try done.
  destruct action as [| | | | |f| | |]; try done.
  by destruct Hguard.
Qed.

Lemma addKeyListener_invalid_noop_witness :
  (typeof (VString "65") <> "number" \/
   typeof (VFunction (Native 0)) <> "function") /\
  addKeyListener (VString "65") (VFunction (Native 0)) World_initial
    = Normal VUndefined World_initial.
Proof.
  assert (H : typeof (VString "65") <> "number" \/
              typeof (VFunction (Native 0)) <> "function")
    by (left; discriminate).
  split; [exact H |].
  exact (addKeyListener_invalid_noop (VString "65") (VFunction (Native 0))
           World_initial H).
Defined.

(** ** The key actions of the regions panel *)

Lemma get_delete {V} (k k' : number) (m : list (number * V)) :
  JsMap.get k' (JsMap.delete k m) =
  if decide (k = k') then None else JsMap.get k' m.
Proof.
  destruct (decide (k = k')) as [->|Hne].
  - apply JsMapFacts.get_delete_eq.
  - by apply JsMapFacts.get_delete_ne.
Qed.

Lemma get_set {V} (k k' : number) (v : V) (m : list (number * V)) :
  JsMap.get k' (JsMap.set k v m) =
  if decide (k = k') then Some v else JsMap.get k' m.
Proof.
  destruct (decide (k = k')) as [->|Hne].
  - apply JsMapFacts.get_set_eq.
  - by apply JsMapFacts.get_set_ne.
Qed.

(** [attached] sets the five entries, in the order of [key_actions], and
    touches nothing else. *)
Lemma attached_run (w : World) :
  Regions.attached w =
  Normal VUndefined
    (with_this
       (with_key_listeners
          (foldl
             (fun m action =>
                JsMap.set (key action) (RegionsKeyHandler action) m)
             (key_listeners (this w)) Regions.key_actions)
          (this w)) w).
Proof. reflexivity. Qed.

(** [detached] deletes the five entries and touches nothing else. *)
Lemma detached_run (w : World) :
  Regions.detached w =
  Normal VUndefined
    (with_this
       (with_key_listeners
          (foldl (fun m action => JsMap.delete (key action) m)
             (key_listeners (this w)) Regions.key_actions)
          (this w)) w).
Proof. reflexivity. Qed.

Lemma not_Regions_key (k : number) :
  Int 68 <> k -> Int 85 <> k -> Int 83 <> k -> Int 89 <> k -> Int 90 <> k ->
  bool_decide (k ∈ Regions_keys) = false.
Proof.
  intros. apply bool_decide_eq_false. unfold Regions_keys.
  rewrite !elem_of_cons, elem_of_nil. intuition congruence.
Qed.

(** C10: the key codes of [key_actions] are 68, 85, 83, 89 and 90;
    [attached] completes and leaves the handler built around each action
    under its code, and every other code as it was; [detached], from
    whatever the registry holds by then, completes and leaves no handler
    under any of the five codes, and every other code as it was; so after
    [attached] and then [detached] the five codes have no handler, also
    where one was registered before. *)
Theorem Regions_attached_detached (w : World) :
  map key Regions.key_actions = Regions_keys /\
  (exists w1,
     Regions.attached w = Normal VUndefined w1 /\
     forall k,
       JsMap.get k (key_listeners (this w1)) =
       match
         find (fun action => bool_decide (key action = k)) Regions.key_actions
       with
       | Some action => Some (RegionsKeyHandler action)
       | None => JsMap.get k (key_listeners (this w))
       end) /\
  (exists w2,
     Regions.detached w = Normal VUndefined w2 /\
     forall k,
       JsMap.get k (key_listeners (this w2)) =
       if bool_decide (k ∈ Regions_keys) then None
       else JsMap.get k (key_listeners (this w))) /\
  (exists w1 w2,
     Regions.attached w = Normal VUndefined w1 /\
     Regions.detached w1 = Normal VUndefined w2 /\
     image_configs (this w2) = image_configs (this w) /\
     selected_config (this w2) = selected_config (this w) /\
     log w2 = log w /\
     forall k,
       JsMap.get k (key_listeners (this w2)) =
       if bool_decide (k ∈ Regions_keys) then None
       else JsMap.get k (key_listeners (this w))).
Proof.
  split; [reflexivity |]. split_and!.
  - eexists. split; [apply attached_run |]. intros k. simpl.
    rewrite !get_set. by_key_code k.
    simpl. by rewrite !bool_decide_eq_false_2 by done.
  - eexists. split; [apply detached_run |]. intros k. simpl.
    rewrite !get_delete. by_key_code k.
    by rewrite not_Regions_key.
  - do 2 eexists. split; [apply attached_run |].
    split; [apply detached_run |]. split_and!; try reflexivity.
    intros k. simpl. rewrite !get_delete. by_key_code k.
    rewrite not_Regions_key by done. rewrite !get_set.
    by rewrite !decide_False.
Qed.

(** ** The shape of [image_configs] is kept *)

(** That the map holds each key once and every config under its own id,
    which C5 starts from, holds of a new context and is kept by the methods
    that write to the map. *)
Lemma keyed_by_id_delete k m : keyed_by_id m -> keyed_by_id (JsMap.delete k m).
Proof.
  unfold keyed_by_id. induction m as [|[k' c] m IH]; simpl; [done |].
  intros [Hc Hm]%Forall_cons.
  destruct (decide (k = k')); [by apply IH |].
  apply Forall_cons. split; [done | by apply IH].
Qed.

Lemma keyed_by_id_set c m :
  keyed_by_id m -> keyed_by_id (JsMap.set (ImageConfig.id c) c m).
Proof.
  unfold keyed_by_id. induction m as [|[k' c'] m IH]; simpl.
  - intros _. by apply Forall_singleton.
  - intros [Hc Hm]%Forall_cons.
    destruct (decide (ImageConfig.id c = k')); apply Forall_cons.
    + done.
    + split; [done | by apply IH].
Qed.

Lemma Context_fields_well_formed :
  JsMap.unique (image_configs Context_fields) /\
  keyed_by_id (image_configs Context_fields).
Proof. split; [apply NoDup_nil_2 | apply Forall_nil_2]. Qed.

Lemma removeImageConfig_well_formed v w :
  JsMap.unique (image_configs (this w)) ->
  keyed_by_id (image_configs (this w)) ->
  JsMap.unique (image_configs (this (world_of (removeImageConfig v w)))) /\
  keyed_by_id (image_configs (this (world_of (removeImageConfig v w)))).
Proof.
  intros Huniq Hkeyed. rewrite removeImageConfig_run. simpl.
  destruct (resolve v (this w)) as [conf|]; simpl; [| done].
  split; [by apply JsMapFacts.unique_delete | by apply keyed_by_id_delete].
Qed.

(** [selectConfig] does not write to the map, however it ends. *)
Lemma selectConfig_image_configs v w :
  image_configs (this (world_of (selectConfig v w))) = image_configs (this w).
Proof.
  unfold selectConfig.
  destruct (default_param v VNull) as [| | |n| | | | |]; try done.
  run. destruct (number_ltb0 n); [done |]. simpl.
  destruct (JsMap.has n (image_configs (this w))); [| done]. simpl.
  destruct (useMDI (this w)); [| done].
  unfold publish. run. by destruct (eventbus (this w)).
Qed.

(** In MDI mode [addImageConfig] adds its config to the map, also when
    publishing the selection throws. *)
Lemma addImageConfig_MDI_image_configs (ImageConfig_id : nat -> number) n w :
  number_ltb0 n = false ->
  useMDI (this w) = true ->
  let conf :=
    ImageConfig.mk (instances w) (ImageConfig_id (instances w)) n in
  image_configs
    (this (world_of (addImageConfig ImageConfig_id (VNumber n) w))) =
  JsMap.set (ImageConfig.id conf) conf (image_configs (this w)).
Proof.
  intros Hn Hmdi conf. unfold addImageConfig. simpl. rewrite Hn.
  unfold andThen at 1. unfold gets at 1. rewrite Hmdi. simpl.
  unfold andThen at 1. unfold pure at 1.
  unfold andThen at 1. unfold new_ImageConfig at 1. simpl.
  unfold andThen at 1. unfold assign at 1. simpl.
  unfold andThen at 1.
  match goal with
  | |- context [selectConfig ?v0 ?w0] =>
      pose proof (selectConfig_image_configs v0 w0) as Hsel;
      destruct (selectConfig v0 w0) as [r w'|e w']
  end; simpl in *; by rewrite Hsel.
Qed.

Lemma addImageConfig_well_formed (ImageConfig_id : nat -> number) v w :
  JsMap.unique (image_configs (this w)) ->
  keyed_by_id (image_configs (this w)) ->
  JsMap.unique
    (image_configs (this (world_of (addImageConfig ImageConfig_id v w)))) /\
  keyed_by_id
    (image_configs (this (world_of (addImageConfig ImageConfig_id v w)))).
Proof.
  intros Huniq Hkeyed.
  destruct v as [| | |n| | | | |]; try done.
  destruct (number_ltb0 n) eqn:Hn.
  { unfold addImageConfig. simpl. by rewrite Hn. }
  destruct (useMDI (this w)) eqn:Hmdi.
  - rewrite addImageConfig_MDI_image_configs by done.
    split; [by apply JsMapFacts.unique_set | by apply keyed_by_id_set].
  - rewrite addImageConfig_run_single by done. simpl.
    split; [apply NoDup_singleton | by apply Forall_singleton].
Qed.

(** ** More on [Map] *)

Section MoreFacts.
Context {K V : Type} `{EqDecision K}.
Implicit Types (k : K) (v : V) (m : list (K * V)).

(** Setting a key to what it holds changes nothing. *)
Lemma set_same k v m : JsMap.get k m = Some v -> JsMap.set k v m = m.
Proof.
  induction m as [|[k' v'] m IH]; simpl; [done |].
  destruct (decide (k = k')) as [->|Hne].
  - by intros [= ->].
  - intros Hg. by rewrite IH.
Qed.

Lemma delete_set_eq k v m :
  JsMap.delete k (JsMap.set k v m) = JsMap.delete k m.
Proof.
  induction m as [|[k' v'] m IH]; simpl.
  - by rewrite decide_True.
  - destruct (decide (k = k')) as [->|Hne]; simpl.
    + by rewrite decide_True.
    + rewrite decide_False by done. by rewrite IH.
Qed.

Lemma delete_set_ne k k' v m :
  k <> k' ->
  JsMap.delete k (JsMap.set k' v m) = JsMap.set k' v (JsMap.delete k m).
Proof.
  intros Hne. induction m as [|[k0 v0] m IH]; simpl.
  - by rewrite decide_False.
  - destruct (decide (k' = k0)) as [->|Hk'];
      destruct (decide (k = k0)) as [->|Hk]; simpl.
    + done.
    + rewrite decide_False by done. by rewrite decide_True.
    + rewrite decide_True by done. apply IH.
    + rewrite !decide_False by done. by rewrite IH.
Qed.

(** A key that was not there is gone without a trace once set and
    deleted. *)
Lemma delete_set_absent k v m :
  JsMap.get k m = None -> JsMap.delete k (JsMap.set k v m) = m.
Proof.
  intros Hg. rewrite delete_set_eq. by apply JsMapFacts.delete_absent.
Qed.

End MoreFacts.

(** ** More on the key listeners *)

Lemma with_key_listeners_same w :
  with_this (with_key_listeners (key_listeners (this w)) (this w)) w = w.
Proof. by destruct w as [[] ? ? ?]. Qed.

Lemma removeKeyListener_run (k : number) (w : World) :
  removeKeyListener (VNumber k) w =
  Normal VUndefined
    (with_this
       (with_key_listeners (JsMap.delete k (key_listeners (this w)))
          (this w)) w).
Proof. reflexivity. Qed.

(** X1: [removeKeyListener] with what is no registered key code, a number
    without a handler or a value that is no number, returns [undefined] and
    changes nothing. *)
Theorem removeKeyListener_absent_noop (key : value) (w : World) :
  ~ is_listener key (this w) ->
  removeKeyListener key w = Normal VUndefined w.
Proof.
  intros Habsent. destruct key as [| | |k| | | | |]; try done.
  rewrite removeKeyListener_run. simpl in Habsent.
  rewrite JsMapFacts.delete_absent; [by rewrite with_key_listeners_same |].
  destruct (JsMap.get k (key_listeners (this w))); [| done].
  destruct Habsent. by eexists.
Qed.

Lemma removeKeyListener_absent_noop_witness :
  (~ is_listener (VNumber (Int 65)) (this World_listening) /\
   removeKeyListener (VNumber (Int 65)) World_listening
     = Normal VUndefined World_listening) /\
  (~ is_listener (VString "65") (this World_listening) /\
   removeKeyListener (VString "65") World_listening
     = Normal VUndefined World_listening).
Proof.
  assert (H1 : ~ is_listener (VNumber (Int 65)) (this World_listening)).
  { simpl. intros [f Hf]. discriminate Hf. }
  assert (H2 : ~ is_listener (VString "65") (this World_listening)).
  { simpl. intros []. }
  split.
  - split; [exact H1 |].
    exact (removeKeyListener_absent_noop (VNumber (Int 65)) World_listening H1).
  - split; [exact H2 |].
    exact (removeKeyListener_absent_noop (VString "65") World_listening H2).
Defined.

(** X2: once [removeKeyListener] was called for the key code of an event,
    that keydown reaches no handler: the listener returns [undefined], calls
    nothing (no [preventDefault] either) and changes nothing, whatever was
    registered before. *)
Theorem removeKeyListener_then_keydown_silent
    (Function_throws : nat -> option Exception)
    (Method_throws : Method -> option Exception)
    (event : KeyboardEvent) (w : World) :
  exists w',
    removeKeyListener (VNumber (keyCode event)) w = Normal VUndefined w' /\
    keydown Function_throws Method_throws event w' = Normal VUndefined w'.
Proof.
  eexists. split; [apply removeKeyListener_run |].
  unfold keydown. simpl. destruct (window_onkeydown w); [| done].
  unfold onkeydown, try_catch. unfold andThen at 1.
  destruct (ctrlKey event); simpl; [| done].
  destruct (target_tagName event) as [tagName|]; [| done]. simpl.
  destruct (String.eqb (toUpperCase tagName) "INPUT"); [done |].
  unfold andThen at 1. unfold gets at 1. simpl.
  by rewrite JsMapFacts.get_delete_eq.
Qed.

(** X3: registering a handler for a key code that had none and removing it
    again gives back the registry, and the whole world, as it was. *)
Theorem addKeyListener_removeKeyListener_round_trip
    (k : number) (f : Fn) (w : World) :
  JsMap.get k (key_listeners (this w)) = None ->
  (addKeyListener (VNumber k) (VFunction f);;
   removeKeyListener (VNumber k)) w = Normal VUndefined w.
Proof.
  intros Hget. unfold andThen. rewrite addKeyListener_run.
  rewrite removeKeyListener_run. simpl.
  rewrite delete_set_absent by done.
  by destruct w as [[] ? ? ?].
Qed.

Lemma addKeyListener_removeKeyListener_round_trip_witness :
  JsMap.get (Int 65) (key_listeners (this World_listening)) = None /\
  (addKeyListener (VNumber (Int 65)) (VFunction (Native 1));;
   removeKeyListener (VNumber (Int 65))) World_listening
    = Normal VUndefined World_listening.
Proof.
  assert (H : JsMap.get (Int 65) (key_listeners (this World_listening))
              = None) by reflexivity.
  split; [exact H |].
  exact (addKeyListener_removeKeyListener_round_trip (Int 65) (Native 1)
           World_listening H).
Defined.

(** When the code had a handler, removing after registering does not bring
    it back. *)
Lemma addKeyListener_removeKeyListener_forgets (k : number) (f : Fn) w :
  JsMap.get k
    (key_listeners
       (this (world_of ((addKeyListener (VNumber k) (VFunction f);;
                         removeKeyListener (VNumber k)) w)))) = None.
Proof.
  unfold andThen. rewrite addKeyListener_run, removeKeyListener_run. simpl.
  apply JsMapFacts.get_delete_eq.
Qed.

Lemma after_nil w : after (this w) [] w = w.
Proof. unfold after. rewrite app_nil_r. by destruct w. Qed.

(** X4: a keydown without the control key, without a target, or from an
    input field (its tag name in any case) is passed over: the listener
    returns [undefined], calls nothing and changes nothing, whatever is
    registered for its key code. *)
Theorem onkeydown_ignores
    (Function_throws : nat -> option Exception)
    (Method_throws : Method -> option Exception)
    (event : KeyboardEvent) (w : World) :
  ctrlKey event = false \/
  target_tagName event = None \/
  (exists tagName, target_tagName event = Some tagName /\
                   toUpperCase tagName = "INPUT") ->
  onkeydown Function_throws Method_throws event w = Normal VUndefined w.
Proof.
  intros Hskip. unfold onkeydown, try_catch. unfold andThen at 1.
  destruct (ctrlKey event); simpl.
  - destruct Hskip as [? | [Htarget | (tagName & Htarget & Hinput)]];
      [done | by rewrite Htarget |].
    rewrite Htarget. simpl. by rewrite Hinput.
  - done.
Qed.

Lemma onkeydown_ignores_witness :
  (ctrlKey (mkKeyboardEvent true (Some "input") (Int 65)) = false \/
   target_tagName (mkKeyboardEvent true (Some "input") (Int 65)) = None \/
   (exists tagName,
      target_tagName (mkKeyboardEvent true (Some "input") (Int 65))
        = Some tagName /\
      toUpperCase tagName = "INPUT")) /\
  onkeydown (fun _ => None) (fun _ => None)
    (mkKeyboardEvent true (Some "input") (Int 65))
    (world_of
       (addKeyListener (VNumber (Int 65)) (VFunction (Native 1))
          World_listening))
  = Normal VUndefined
      (world_of
         (addKeyListener (VNumber (Int 65)) (VFunction (Native 1))
            World_listening)).
Proof.
  assert (H : ctrlKey (mkKeyboardEvent true (Some "input") (Int 65)) = false \/
              target_tagName (mkKeyboardEvent true (Some "input") (Int 65))
                = None \/
              (exists tagName,
                 target_tagName (mkKeyboardEvent true (Some "input") (Int 65))
                   = Some tagName /\
                 toUpperCase tagName = "INPUT")).
  { right. right. exists "input". split; reflexivity. }
  split; [exact H |].
  exact (onkeydown_ignores (fun _ => None) (fun _ => None)
           (mkKeyboardEvent true (Some "input") (Int 65))
           (world_of
              (addKeyListener (VNumber (Int 65)) (VFunction (Native 1))
                 World_listening)) H).
Defined.


(** ** More on the key actions of the regions panel *)

(** After [attached] every action's code holds the handler built around
    that action. *)
Lemma attached_get (action : KeyAction) (w : World) :
  action ∈ Regions.key_actions ->
  JsMap.get (key action)
    (key_listeners (this (world_of (Regions.attached w))))
  = Some (RegionsKeyHandler action).
Proof.
  intros Hin. rewrite attached_run. simpl. unfold Regions.key_actions in Hin.
  rewrite !elem_of_cons, elem_of_nil in Hin.
  destruct Hin as [->|[->|[->|[->|[->|[]]]]]]; simpl;
    rewrite !get_set; reflexivity.
Qed.

(** X6: with the panel attached, a keydown with the control key and the
    code of one of its actions, not from an input field, always suppresses
    the default action; the method of the action is applied, to the
    arguments of the action, only when [show_regions] is set, and the
    listener returns [false] unless that method threw. *)
Theorem Regions_shortcut_gated
    (Function_throws : nat -> option Exception)
    (Method_throws : Method -> option Exception)
    (action : KeyAction) (event : KeyboardEvent) (tagName : string)
    (w : World) :
  action ∈ Regions.key_actions ->
  window_onkeydown w = true ->
  ctrlKey event = true ->
  keyCode event = key action ->
  target_tagName event = Some tagName ->
  toUpperCase tagName <> "INPUT" ->
  exists w1,
    Regions.attached w = Normal VUndefined w1 /\
    keydown Function_throws Method_throws event w1 =
    if show_regions (this w)
    then
      Normal
        (match Method_throws (func action) with
         | Some _ => VUndefined
         | None => VBoolean false
         end)
        (after (this w1)
           [Event_preventDefault event;
            Regions_apply (func action) (args action)] w1)
    else Normal (VBoolean false) (after (this w1) [Event_preventDefault event] w1).
Proof.
  intros Hin Hwin Hctrl Hcode Htarget Hinput.
  pose proof (attached_get action w Hin) as Hget.
  rewrite attached_run in Hget. simpl in Hget.
  eexists. split; [apply attached_run |].
  unfold keydown. simpl. rewrite Hwin.
  unfold onkeydown, try_catch. unfold andThen at 1.
  rewrite Hctrl, Htarget. simpl.
  apply String.eqb_neq in Hinput. rewrite Hinput.
  unfold andThen at 1. unfold gets at 1. simpl. rewrite Hcode, Hget.
  unfold call, andThen, emit, gets. simpl. rewrite Hctrl.
  destruct (show_regions (this w)); simpl; [| done].
  rewrite <- app_assoc. simpl.
  by destruct (Method_throws (func action)).
Qed.

Lemma Regions_shortcut_gated_witness :
  (mkKeyAction (Int 85) deleteShapes (Some [false; true])
     ∈ Regions.key_actions /\
   window_onkeydown World_listening = true /\
   toUpperCase "canvas" <> "INPUT") /\
  exists w1,
    Regions.attached World_listening = Normal VUndefined w1 /\
    keydown (fun _ => None) (fun _ => None)
      (mkKeyboardEvent true (Some "canvas") (Int 85)) w1 =
    Normal (VBoolean false)
      (after (this w1)
         [Event_preventDefault (mkKeyboardEvent true (Some "canvas") (Int 85))]
         w1).
Proof.
  assert (H1 : mkKeyAction (Int 85) deleteShapes (Some [false; true])
                 ∈ Regions.key_actions).
  { unfold Regions.key_actions. rewrite !elem_of_cons. right. by left. }
  assert (H2 : window_onkeydown World_listening = true) by reflexivity.
  assert (H3 : toUpperCase "canvas" <> "INPUT") by discriminate.
  split; [by split_and! |].
  exact (Regions_shortcut_gated (fun _ => None) (fun _ => None)
           (mkKeyAction (Int 85) deleteShapes (Some [false; true]))
           (mkKeyboardEvent true (Some "canvas") (Int 85)) "canvas"
           World_listening H1 H2 eq_refl eq_refl eq_refl H3).
Defined.

(** X7: the registry keeps holding each key code once under every operation
    on it: [addKeyListener] and [removeKeyListener] with whatever
    arguments, and [attached] and [detached] of the regions panel. *)
Theorem key_listeners_unique_kept (key action : value) (w : World) :
  JsMap.unique (key_listeners (this w)) ->
  JsMap.unique
    (key_listeners (this (world_of (addKeyListener key action w)))) /\
  JsMap.unique (key_listeners (this (world_of (removeKeyListener key w)))) /\
  JsMap.unique (key_listeners (this (world_of (Regions.attached w)))) /\
  JsMap.unique (key_listeners (this (world_of (Regions.detached w)))).
Proof.
  intros Huniq. split_and!.
  - destruct key as [| | |k| | | | |]; try done.
    destruct action as [| | | | |f| | |]; try done.
    rewrite addKeyListener_run. simpl. by apply JsMapFacts.unique_set.
  - destruct key as [| | |k| | | | |]; try done.
    rewrite removeKeyListener_run. simpl. by apply JsMapFacts.unique_delete.
  - rewrite attached_run. simpl. by repeat apply JsMapFacts.unique_set.
  - rewrite detached_run. simpl. by repeat apply JsMapFacts.unique_delete.
Qed.

Lemma key_listeners_unique_kept_witness :
  JsMap.unique (key_listeners (this World_listening)) /\
  JsMap.unique
    (key_listeners (this (world_of (Regions.attached World_listening)))).
Proof.
  assert (H : JsMap.unique (key_listeners (this World_listening)))
    by apply NoDup_nil_2.
  split; [exact H |].
  exact (proj1 (proj2 (proj2
           (key_listeners_unique_kept VNull VNull World_listening H)))).
Defined.

(** X8: [attached] a second time changes nothing: the five handlers are
    neither doubled nor moved. *)
Theorem Regions_attached_idempotent (w : World) :
  (Regions.attached;; Regions.attached) w = Regions.attached w.
Proof.
  unfold andThen. rewrite (attached_run w). rewrite attached_run.
  f_equal. simpl.
  rewrite (set_same (Int 68)) by (rewrite !get_set; reflexivity).
  rewrite (set_same (Int 85)) by (rewrite !get_set; reflexivity).
  rewrite (set_same (Int 83)) by (rewrite !get_set; reflexivity).
  rewrite (set_same (Int 89)) by (rewrite !get_set; reflexivity).
  rewrite (set_same (Int 90)) by (rewrite !get_set; reflexivity).
  reflexivity.
Qed.

(** X9: where none of the five key codes had a handler, [attached] and then
    [detached] give back the registry, and the whole world, as it was. *)
Theorem Regions_attached_detached_round_trip (w : World) :
  Forall (fun k => JsMap.get k (key_listeners (this w)) = None)
    Regions_keys ->
  (Regions.attached;; Regions.detached) w = Normal VUndefined w.
Proof.
  unfold Regions_keys. rewrite !Forall_cons.
  intros (H68 & H85 & H83 & H89 & H90 & _).
  unfold andThen. rewrite attached_run, detached_run. simpl.
  rewrite !(delete_set_ne (Int 68)) by done.
  rewrite (delete_set_absent (Int 68) _ _ H68).
  rewrite !(delete_set_ne (Int 85)) by done.
  rewrite (delete_set_absent (Int 85) _ _ H85).
  rewrite !(delete_set_ne (Int 83)) by done.
  rewrite (delete_set_absent (Int 83) _ _ H83).
  rewrite !(delete_set_ne (Int 89)) by done.
  rewrite (delete_set_absent (Int 89) _ _ H89).
  rewrite (delete_set_absent (Int 90) _ _ H90).
  by destruct w as [[] ? ? ?].
Qed.

Lemma Regions_attached_detached_round_trip_witness :
  Forall (fun k => JsMap.get k (key_listeners (this World_listening)) = None)
    Regions_keys /\
  (Regions.attached;; Regions.detached) World_listening
    = Normal VUndefined World_listening.
Proof.
  assert (H : Forall
                (fun k =>
                   JsMap.get k (key_listeners (this World_listening)) = None)
                Regions_keys).
  { unfold Regions_keys. repeat constructor. }
  split; [exact H |].
  exact (Regions_attached_detached_round_trip World_listening H).
Defined.

(** ** More on selecting and looking up *)

(** [selectConfig] of an id that is in the map and not below zero: the
    selection is assigned first and published after, in MDI mode only, and
    publishing asks for an [EventAggregator]. *)
Lemma selectConfig_run_present n c w :
  JsMap.get n (image_configs (this w)) = Some c ->
  number_ltb0 n = false ->
  selectConfig (VNumber n) w =
  if useMDI (this w)
  then
    match eventbus (this w) with
    | VEventAggregator _ =>
        Normal VUndefined
          (after (with_selected_config (VNumber n) (this w))
             [EventAggregator_publish IMAGE_CONFIG_SELECT (VNumber n)] w)
    | _ =>
        Throw TypeError (with_this (with_selected_config (VNumber n) (this w)) w)
    end
  else
    Normal VUndefined (with_this (with_selected_config (VNumber n) (this w)) w).
Proof.
  intros Hget Hn. unfold selectConfig. run. rewrite Hn. unfold JsMap.has.
  rewrite Hget. simpl. destruct (useMDI (this w)); [| done].
  unfold publish. run. by destruct (eventbus (this w)).
Qed.



(** X11: what was selected is what [getSelectedImageConfig] hands back:
    after [selectConfig] of an id that is in the map and not below zero,
    however the call ended, it returns the config stored under that id and
    changes nothing. *)
Theorem selectConfig_then_getSelectedImageConfig n c w :
  JsMap.get n (image_configs (this w)) = Some c ->
  number_ltb0 n = false ->
  getSelectedImageConfig (world_of (selectConfig (VNumber n) w)) =
  Normal (VImageConfig c) (world_of (selectConfig (VNumber n) w)).
Proof.
  intros Hget Hn. rewrite (selectConfig_run_present n c w Hget Hn).
  unfold getSelectedImageConfig. unfold andThen at 1. unfold gets at 1.
  destruct (useMDI (this w)); [destruct (eventbus (this w)) |]; simpl;
    rewrite getImageConfig_run, Hn; simpl; by rewrite Hget.
Qed.

Lemma selectConfig_then_getSelectedImageConfig_witness :
  (JsMap.get (Int 4) (image_configs (this World_one_config))
     = Some sample_config /\
   number_ltb0 (Int 4) = false) /\
  getSelectedImageConfig
    (world_of (selectConfig (VNumber (Int 4)) World_one_config)) =
  Normal (VImageConfig sample_config)
    (world_of (selectConfig (VNumber (Int 4)) World_one_config)).
Proof.
  assert (H1 : JsMap.get (Int 4) (image_configs (this World_one_config))
               = Some sample_config) by reflexivity.
  assert (H2 : number_ltb0 (Int 4) = false) by reflexivity.
  split; [by split |].
  exact (selectConfig_then_getSelectedImageConfig (Int 4) sample_config
           World_one_config H1 H2).
Defined.

(** X12: [getImageConfig] with [forceRequest] returns what it returns
    without, and asks the config it found, and only that one, to request
    its data, once; for an id that is not there nothing is asked.  The
    context is left as it is either way. *)
Theorem getImageConfig_forceRequest (id : value) (w : World) :
  exists r,
    getImageConfig id false w = Normal r w /\
    getImageConfig id true w =
    Normal r
      (after (this w)
         (match r with
          | VImageConfig c => [ImageInfo_requestData c]
          | _ => []
          end) w) /\
    (r = VNull \/
     exists n c, id = VNumber n /\ r = VImageConfig c /\
                 JsMap.get n (image_configs (this w)) = Some c).
Proof.
  rewrite getImageConfig_run. eexists. split; [reflexivity |].
  unfold getImageConfig.
  destruct id as [| | |n| | | | |]; simpl;
    try (rewrite after_nil; split; [reflexivity | by left]).
  destruct (number_ltb0 n); simpl;
    [rewrite after_nil; split; [reflexivity | by left] |].
  run. destruct (JsMap.get n (image_configs (this w))) as [c|] eqn:Hget; simpl.
  - split; [reflexivity |]. right. by exists n, c.
  - rewrite after_nil. split; [reflexivity | by left].
Qed.

(** ** More on removing *)

(** X13: [removeImageConfig] of what resolves to a config, the entry under
    a number or an instance handed over, takes the entry under the id of
    that config out of the map, leaves every other entry, the selection and
    the key listeners alone, and calls the [unbind] hook of that config,
    once, as its only call. *)
Theorem removeImageConfig_removes (v : value) (conf : ImageConfig) (w : World) :
  resolve v (this w) = Some conf ->
  exists w',
    removeImageConfig v w = Normal VUndefined w' /\
    JsMap.get (ImageConfig.id conf) (image_configs (this w')) = None /\
    (forall k, k <> ImageConfig.id conf ->
               JsMap.get k (image_configs (this w'))
               = JsMap.get k (image_configs (this w))) /\
    log w' = log w ++ [ImageConfig_unbind conf] /\
    selected_config (this w') = selected_config (this w) /\
    key_listeners (this w') = key_listeners (this w).
Proof.
  intros Hresolve. rewrite removeImageConfig_run, Hresolve.
  eexists. split; [reflexivity |]. simpl. split_and!; try done.
  - apply JsMapFacts.get_delete_eq.
  - intros k Hk. by apply JsMapFacts.get_delete_ne.
Qed.

Lemma removeImageConfig_removes_witness :
  resolve (VNumber (Int 4)) (this World_one_config) = Some sample_config /\
  exists w',
    removeImageConfig (VNumber (Int 4)) World_one_config
      = Normal VUndefined w' /\
    JsMap.get (Int 4) (image_configs (this w')) = None /\
    log w' = [ImageConfig_unbind sample_config].
Proof.
  assert (H : resolve (VNumber (Int 4)) (this World_one_config)
              = Some sample_config) by reflexivity.
  split; [exact H |].
  destruct (removeImageConfig_removes (VNumber (Int 4)) sample_config
              World_one_config H) as (w' & Hrun & Hget & _ & Hlog & _).
  exists w'. by split_and!.
Defined.

(** X14: although [removeImageConfig] leaves the id of a removed config in
    [selected_config], [getSelectedImageConfig] does not hand the removed
    config back: after the selected config was removed by its id, from a map
    that holds every config under its own id, it returns [null]. *)
Theorem getSelectedImageConfig_after_remove n c w :
  selected_config (this w) = VNumber n ->
  JsMap.get n (image_configs (this w)) = Some c ->
  ImageConfig.id c = n ->
  exists w',
    removeImageConfig (VNumber n) w = Normal VUndefined w' /\
    selected_config (this w') = VNumber n /\
    getSelectedImageConfig w' = Normal VNull w'.
Proof.
  intros Hsel Hget Hid. rewrite removeImageConfig_run. simpl. rewrite Hget.
  eexists. split; [reflexivity |]. split; [done |].
  unfold getSelectedImageConfig. unfold andThen at 1. unfold gets at 1.
  simpl. rewrite Hsel. simpl. rewrite getImageConfig_run.
  destruct (number_ltb0 n); [done |]. simpl.
  by rewrite Hid, JsMapFacts.get_delete_eq.
Qed.

Lemma getSelectedImageConfig_after_remove_witness :
  (selected_config (this World_selected) = VNumber (Int 4) /\
   JsMap.get (Int 4) (image_configs (this World_selected))
     = Some sample_config /\
   ImageConfig.id sample_config = Int 4) /\
  exists w',
    removeImageConfig (VNumber (Int 4)) World_selected
      = Normal VUndefined w' /\
    selected_config (this w') = VNumber (Int 4) /\
    getSelectedImageConfig w' = Normal VNull w'.
Proof.
  split; [by split_and! |].
  exact (getSelectedImageConfig_after_remove (Int 4) sample_config
           World_selected eq_refl eq_refl eq_refl).
Defined.

(** ** More on adding *)

(** The loop of [addImageConfig] completes on any map, writes to the map
    only and calls nothing but [unbind] hooks. *)
Lemma removeImageConfigs_shape entries : forall w,
  exists m calls,
    removeImageConfigs entries w =
    Normal tt (after (with_image_configs m (this w)) calls w) /\
    Forall (fun call => exists c, call = ImageConfig_unbind c) calls.
Proof.
  induction entries as [|[k c] rest IH]; intros w.
  - exists (image_configs (this w)), []. split; [| constructor].
    simpl. unfold pure, after. rewrite app_nil_r.
    by destruct w as [[] ? ? ?].
  - simpl. unfold andThen at 1. unfold gets at 1.
    destruct (JsMap.has k (image_configs (this w))).
    + unfold andThen at 1. rewrite removeImageConfig_run.
      destruct (resolve (VNumber k) (this w)) as [conf|].
      * destruct (IH (removed conf w)) as (m & calls & -> & Hcalls).
        exists m, (ImageConfig_unbind conf :: calls). split.
        -- unfold after. simpl. by rewrite <- app_assoc.
        -- constructor; [by eexists | done].
      * apply IH.
    + unfold andThen at 1. unfold pure at 1. apply IH.
Qed.

Section MoreAddImageConfig.
Variable ImageConfig_id : nat -> number.

(** One call of [addImageConfig] outside MDI mode, on any map: it completes
    with the config it built, stored under its id and selected unless that
    id is below zero; before the config is built only [unbind] hooks are
    called. *)
Lemma addImageConfig_run_single_any n w :
  number_ltb0 n = false ->
  useMDI (this w) = false ->
  let conf :=
    ImageConfig.mk (instances w) (ImageConfig_id (instances w)) n in
  exists m calls,
    addImageConfig ImageConfig_id (VNumber n) w =
    Normal (VImageConfig conf)
      {| this :=
           with_selected_config
             (if number_ltb0 (ImageConfig.id conf)
              then selected_config (this w)
              else VNumber (ImageConfig.id conf))
             (with_image_configs
                (JsMap.set (ImageConfig.id conf) conf m) (this w));
         log := log w ++ calls ++
                [ImageConfig_new conf; ImageConfig_bind conf];
         instances := S (instances w);
         window_onkeydown := window_onkeydown w |} /\
    Forall (fun call => exists c, call = ImageConfig_unbind c) calls.
Proof.
  intros Hn Hmdi conf. unfold addImageConfig. simpl. rewrite Hn.
  unfold andThen at 1. unfold gets at 1. rewrite Hmdi. simpl.
  unfold andThen at 1. unfold andThen at 1. unfold gets at 1.
  destruct (removeImageConfigs_shape (image_configs (this w)) w)
    as (m & calls & -> & Hcalls).
  exists m, calls. split; [| done].
  unfold andThen at 1. unfold new_ImageConfig at 1. simpl.
  unfold andThen at 1. unfold assign at 1. simpl.
  unfold andThen at 1. rewrite selectConfig_run_single by done. simpl.
  fold conf. unfold JsMap.has. rewrite JsMapFacts.get_set_eq. simpl.
  change (ImageConfig.id conf) with (ImageConfig_id (instances w)).
  destruct (number_ltb0 (ImageConfig_id (instances w))); run;
    rewrite <- !app_assoc; reflexivity.
Qed.

(** One call of [addImageConfig] in MDI mode: the config is stored beside
    the others; its selection is published before its [bind] hook is
    called, and where the event bus is no [EventAggregator] the call throws
    there, the config stored and selected and its hook not called. *)
Lemma addImageConfig_run_MDI n w :
  number_ltb0 n = false ->
  useMDI (this w) = true ->
  let conf :=
    ImageConfig.mk (instances w) (ImageConfig_id (instances w)) n in
  let stored :=
    with_image_configs
      (JsMap.set (ImageConfig.id conf) conf (image_configs (this w)))
      (this w) in
  addImageConfig ImageConfig_id (VNumber n) w =
  if number_ltb0 (ImageConfig.id conf)
  then
    Normal (VImageConfig conf)
      {| this := stored;
         log := log w ++ [ImageConfig_new conf; ImageConfig_bind conf];
         instances := S (instances w);
         window_onkeydown := window_onkeydown w |}
  else
    match eventbus (this w) with
    | VEventAggregator _ =>
        Normal (VImageConfig conf)
          {| this :=
               with_selected_config (VNumber (ImageConfig.id conf)) stored;
             log := log w ++
                    [ImageConfig_new conf;
                     EventAggregator_publish IMAGE_CONFIG_SELECT
                       (VNumber (ImageConfig.id conf));
                     ImageConfig_bind conf];
             instances := S (instances w);
             window_onkeydown := window_onkeydown w |}
    | _ =>
        Throw TypeError
          {| this :=
               with_selected_config (VNumber (ImageConfig.id conf)) stored;
             log := log w ++ [ImageConfig_new conf];
             instances := S (instances w);
             window_onkeydown := window_onkeydown w |}
    end.
Proof.
  intros Hn Hmdi conf stored. unfold addImageConfig. simpl. rewrite Hn.
  unfold andThen at 1. unfold gets at 1. rewrite Hmdi. simpl.
  unfold andThen at 1. unfold pure at 1.
  unfold andThen at 1. unfold new_ImageConfig at 1. simpl.
  unfold andThen at 1. unfold assign at 1. simpl.
  unfold andThen at 1. fold conf.
  change (ImageConfig.id conf) with (ImageConfig_id (instances w)).
  destruct (number_ltb0 (ImageConfig_id (instances w))) eqn:Hid.
  - unfold selectConfig. run. rewrite Hid. simpl.
    by rewrite <- !app_assoc.
  - erewrite selectConfig_run_present;
      [| simpl; apply JsMapFacts.get_set_eq | done].
    simpl. rewrite Hmdi.
    destruct (eventbus (this w)); simpl; try reflexivity.
    run. by rewrite <- !app_assoc.
Qed.

End MoreAddImageConfig.

(** X15: [addImageConfig] with what is no number, or with a number below
    zero, returns [null] and changes nothing: in particular the configs held
    are not removed, in either mode. *)
Theorem addImageConfig_invalid_noop
    (ImageConfig_id : nat -> number) (image_id : value) (w : World) :
  typeof image_id <> "number" \/ lt0 image_id = true ->
  addImageConfig ImageConfig_id image_id w = Normal VNull w.
Proof.
  intros Hinvalid. unfold addImageConfig.
  destruct image_id as [| | |n| | | | |]; try done.
  destruct Hinvalid as [? | Hn]; [done |]. simpl in *. by rewrite Hn.
Qed.

Lemma addImageConfig_invalid_noop_witness :
  (typeof (VNumber (Int (-1))) <> "number" \/
   lt0 (VNumber (Int (-1))) = true) /\
  addImageConfig counting_ids (VNumber (Int (-1))) World_one_config
    = Normal VNull World_one_config.
Proof.
  assert (H : typeof (VNumber (Int (-1))) <> "number" \/
              lt0 (VNumber (Int (-1))) = true) by (right; reflexivity).
  split; [exact H |].
  exact (addImageConfig_invalid_noop counting_ids (VNumber (Int (-1)))
           World_one_config H).
Defined.

(** X16: a config that [addImageConfig] returned, in either mode and from
    any map, is stored under its id; when that id is not below zero,
    [getImageConfig] of the id hands the same config back, it is the
    selection, and [getSelectedImageConfig] hands it back too. *)
Theorem addImageConfig_then_lookup
    (ImageConfig_id : nat -> number) (image_id : value)
    (conf : ImageConfig) (w w' : World) :
  addImageConfig ImageConfig_id image_id w = Normal (VImageConfig conf) w' ->
  JsMap.get (ImageConfig.id conf) (image_configs (this w')) = Some conf /\
  (number_ltb0 (ImageConfig.id conf) = false ->
   getImageConfig (VNumber (ImageConfig.id conf)) false w'
     = Normal (VImageConfig conf) w' /\
   selected_config (this w') = VNumber (ImageConfig.id conf) /\
   getSelectedImageConfig w' = Normal (VImageConfig conf) w').
Proof.
  intros Hadd.
  assert (Hlookup : forall w0,
    JsMap.get (ImageConfig.id conf) (image_configs (this w0)) = Some conf ->
    (number_ltb0 (ImageConfig.id conf) = false ->
     selected_config (this w0) = VNumber (ImageConfig.id conf)) ->
    JsMap.get (ImageConfig.id conf) (image_configs (this w0)) = Some conf /\
    (number_ltb0 (ImageConfig.id conf) = false ->
     getImageConfig (VNumber (ImageConfig.id conf)) false w0
       = Normal (VImageConfig conf) w0 /\
     selected_config (this w0) = VNumber (ImageConfig.id conf) /\
     getSelectedImageConfig w0 = Normal (VImageConfig conf) w0)).
  { intros w0 Hget Hsel. split; [done |]. intros Hid.
    assert (Hg : getImageConfig (VNumber (ImageConfig.id conf)) false w0
                 = Normal (VImageConfig conf) w0).
    { rewrite getImageConfig_run, Hid. simpl. by rewrite Hget. }
    split_and!; [done | by apply Hsel |].
    unfold getSelectedImageConfig. unfold andThen at 1. unfold gets at 1.
    by rewrite (Hsel Hid). }
  destruct image_id as [| | |n| | | | |]; try done.
  destruct (number_ltb0 n) eqn:Hn.
  { unfold addImageConfig in Hadd. simpl in Hadd. by rewrite Hn in Hadd. }
  destruct (useMDI (this w)) eqn:Hmdi.
  - rewrite (addImageConfig_run_MDI ImageConfig_id n w Hn Hmdi) in Hadd.
    simpl in Hadd.
    destruct (number_ltb0 (ImageConfig_id (instances w))) eqn:Hid.
    + injection Hadd as <- <-. apply Hlookup; simpl.
      * apply JsMapFacts.get_set_eq.
      * by rewrite Hid.
    + destruct (eventbus (this w)); try done.
      injection Hadd as <- <-. apply Hlookup; simpl; [| done].
      apply JsMapFacts.get_set_eq.
  - destruct (addImageConfig_run_single_any ImageConfig_id n w Hn Hmdi)
      as (m & calls & Hrun & _).
    rewrite Hrun in Hadd. injection Hadd as <- <-. apply Hlookup; simpl.
    + apply JsMapFacts.get_set_eq.
    + by intros ->.
Qed.

Lemma addImageConfig_then_lookup_witness :
  addImageConfig counting_ids (VNumber (Int 5)) World_initial
    = Normal (VImageConfig (ImageConfig.mk 0 (Int 0) (Int 5)))
        (world_of (addImageConfig counting_ids (VNumber (Int 5)) World_initial))
  /\
  getSelectedImageConfig
    (world_of (addImageConfig counting_ids (VNumber (Int 5)) World_initial))
  = Normal (VImageConfig (ImageConfig.mk 0 (Int 0) (Int 5)))
      (world_of (addImageConfig counting_ids (VNumber (Int 5)) World_initial)).
Proof.
  assert (H : addImageConfig counting_ids (VNumber (Int 5)) World_initial
    = Normal (VImageConfig (ImageConfig.mk 0 (Int 0) (Int 5)))
        (world_of
           (addImageConfig counting_ids (VNumber (Int 5)) World_initial)))
    by reflexivity.
  split; [exact H |].
  exact (proj2 (proj2 (proj2
    (addImageConfig_then_lookup counting_ids (VNumber (Int 5))
       (ImageConfig.mk 0 (Int 0) (Int 5)) World_initial
       (world_of (addImageConfig counting_ids (VNumber (Int 5)) World_initial))
       H) eq_refl))).
Defined.

(** X17: in MDI mode [addImageConfig] keeps what is held: however the call
    ends, every id other than the new one holds what it held, the new id
    holds the new config, also where another config sat under that id, and
    no [unbind] hook is called. *)
Theorem addImageConfig_MDI_keeps_others
    (ImageConfig_id : nat -> number) (n : number) (w : World) :
  number_ltb0 n = false ->
  useMDI (this w) = true ->
  (forall k,
     JsMap.get k
       (image_configs
          (this (world_of (addImageConfig ImageConfig_id (VNumber n) w))))
     = if decide (ImageConfig_id (instances w) = k)
       then Some (ImageConfig.mk (instances w)
                    (ImageConfig_id (instances w)) n)
       else JsMap.get k (image_configs (this w))) /\
  (forall c,
     ImageConfig_unbind c
       ∈ log (world_of (addImageConfig ImageConfig_id (VNumber n) w)) ->
     ImageConfig_unbind c ∈ log w).
Proof.
  intros Hn Hmdi.
  rewrite (addImageConfig_run_MDI ImageConfig_id n w Hn Hmdi). simpl.
  assert (Hget : forall k,
    JsMap.get k
      (JsMap.set (ImageConfig_id (instances w))
         (ImageConfig.mk (instances w) (ImageConfig_id (instances w)) n)
         (image_configs (this w)))
    = if decide (ImageConfig_id (instances w) = k)
      then Some (ImageConfig.mk (instances w)
                   (ImageConfig_id (instances w)) n)
      else JsMap.get k (image_configs (this w))).
  { intros k. destruct (decide (ImageConfig_id (instances w) = k)) as [<-|Hk].
    - apply JsMapFacts.get_set_eq.
    - by apply JsMapFacts.get_set_ne. }
  destruct (number_ltb0 (ImageConfig_id (instances w)));
    [| destruct (eventbus (this w))]; simpl; (split; [exact Hget |]);
    intros conf; rewrite elem_of_app; intros [Hc | Hc]; try done;
    repeat (apply elem_of_cons in Hc as [Hc | Hc]; [done |]);
    by apply elem_of_nil in Hc.
Qed.

Lemma addImageConfig_MDI_keeps_others_witness :
  (number_ltb0 (Int 7) = false /\ useMDI (this World_MDI_no_bus) = true) /\
  JsMap.get (Int 0)
    (image_configs
       (this (world_of
          (addImageConfig counting_ids (VNumber (Int 7)) World_MDI_no_bus))))
  = Some (ImageConfig.mk 0 (Int 0) (Int 7)).
Proof.
  split; [by split |].
  exact (proj1 (addImageConfig_MDI_keeps_others counting_ids (Int 7)
                  World_MDI_no_bus eq_refl eq_refl) (Int 0)).
Defined.



(** ** More on construction *)

(** All that the constructor does: it throws a TypeError unless the initial
    image id is a number not below zero, and then builds a context with the
    one config for it. *)
Lemma constructor_run
    (ImageConfig_id : nat -> number) (SERVER : string)
    (eventbus initial_image_id : value)
    (optParams : option (gmap string value)) (w : World) :
  constructor ImageConfig_id SERVER eventbus initial_image_id optParams w =
  match default_param initial_image_id VNull with
  | VNumber n =>
      if number_ltb0 n
      then
        Throw TypeError
          (with_this (Context_constructed SERVER eventbus optParams) w)
      else
        let conf :=
          ImageConfig.mk (instances w) (ImageConfig_id (instances w)) n in
        Normal VUndefined
          {| this :=
               with_selected_config (VNumber (ImageConfig.id conf))
                 (with_image_configs [(ImageConfig.id conf, conf)]
                    (Context_constructed SERVER eventbus optParams));
             log := log w ++ [ImageConfig_new conf; ImageConfig_bind conf];
             instances := S (instances w);
             window_onkeydown := true |}
  | _ =>
      Throw TypeError
        (with_this (Context_constructed SERVER eventbus optParams) w)
  end.
Proof.
  unfold constructor. rewrite eventbus_guard_never_holds.
  unfold andThen at 1. unfold assign at 1.
  unfold andThen at 1. unfold assign at 1.
  unfold andThen at 1. unfold assign at 1.
  unfold andThen at 1. unfold assign at 1.
  unfold andThen at 1.
  destruct (default_param initial_image_id VNull) as [| | |n| | | | |];
    try reflexivity.
  destruct (number_ltb0 n) eqn:Hn.
  { unfold addImageConfig. simpl. by rewrite Hn. }
  rewrite addImageConfig_run_single;
    [| done | done | apply NoDup_nil_2 | apply Forall_nil_2].
  simpl. run. by destruct (window_onkeydown w).
Qed.

(** X19: the constructor never throws its own "Invalid EventAggregator
    given!"; whatever the event bus, it completes exactly when the initial
    image id is a number not below zero, and otherwise throws a TypeError,
    having created no config, called nothing and not installed the keydown
    listener. *)
Theorem constructor_completes_iff
    (ImageConfig_id : nat -> number) (SERVER : string)
    (eventbus initial_image_id : value)
    (optParams : option (gmap string value)) (w : World) :
  (exists n w',
     initial_image_id = VNumber n /\ number_ltb0 n = false /\
     constructor ImageConfig_id SERVER eventbus initial_image_id optParams w
       = Normal VUndefined w') \/
  ((forall n, initial_image_id = VNumber n -> number_ltb0 n = true) /\
   exists w',
     constructor ImageConfig_id SERVER eventbus initial_image_id optParams w
       = Throw TypeError w' /\
     image_configs (this w') = [] /\
     log w' = log w /\
     instances w' = instances w /\
     window_onkeydown w' = window_onkeydown w).
Proof.
  rewrite constructor_run.
  destruct initial_image_id as [| | |n| | | | |]; simpl;
    try (right; split; [done |]; eexists; split; [reflexivity | done]).
  destruct (number_ltb0 n) eqn:Hn.
  - right. split; [by intros ? [= <-] |].
    eexists. split; [reflexivity | done].
  - left. by do 2 eexists.
Qed.

(** X20: given an initial image id that is a number not below zero, the
    constructor completes: it stores the event bus as handed over, the
    server worked out of the parameters and the parameters without the
    server key, holds the one config it created, bound and selected, and
    leaves the keydown listener installed. *)
Theorem constructor_builds
    (ImageConfig_id : nat -> number) (SERVER : string)
    (bus : value) (n : number)
    (optParams : option (gmap string value)) (w : World) :
  number_ltb0 n = false ->
  exists w',
    constructor ImageConfig_id SERVER bus (VNumber n) optParams w
      = Normal VUndefined w' /\
    eventbus (this w') = default_param bus VNull /\
    server (this w') =
      VString
        (normalize_server
           (default VUndefined (default ∅ optParams !! SERVER))) /\
    initParams (this w') = base.delete SERVER (default ∅ optParams) /\
    image_configs (this w') =
      [(ImageConfig_id (instances w),
        ImageConfig.mk (instances w) (ImageConfig_id (instances w)) n)] /\
    selected_config (this w') = VNumber (ImageConfig_id (instances w)) /\
    key_listeners (this w') = [] /\
    useMDI (this w') = false /\
    log w' =
      log w ++
      [ImageConfig_new
         (ImageConfig.mk (instances w) (ImageConfig_id (instances w)) n);
       ImageConfig_bind
         (ImageConfig.mk (instances w) (ImageConfig_id (instances w)) n)] /\
    window_onkeydown w' = true.
Proof.
  intros Hn. rewrite constructor_run. simpl. rewrite Hn.
  eexists. split; [reflexivity |]. by split_and!.
Qed.

Lemma constructor_builds_witness :
  number_ltb0 (Int 5) = false /\
  exists w',
    constructor counting_ids "SERVER" VNull (VNumber (Int 5))
      (Some {["SERVER" := VString "localhost:4064"]}) World_initial
      = Normal VUndefined w' /\
    server (this w') = VString "http://localhost:4064" /\
    selected_config (this w') = VNumber (Int 0).
Proof.
  split; [reflexivity |].
  destruct (constructor_builds counting_ids "SERVER" VNull (Int 5)
              (Some {["SERVER" := VString "localhost:4064"]}) World_initial
              eq_refl)
    as (w' & Hrun & _ & Hserver & _ & _ & Hsel & _).
  exists w'. split_and!; [exact Hrun | | exact Hsel].
  rewrite Hserver. reflexivity.
Defined.

(** ** The initial request parameters *)






(** ** The regions panel and its config *)

(** X22: [bind] of the regions panel only looks up: it never throws, and
    leaves the context, the log and [config_id] as they are.  Where
    [config_id] names a config that is held, under an id not below zero, and
    that config has a [regions_info], the panel refers to it afterwards; in
    every other case the panel keeps the [regions_info] it had, so also after
    its config was removed from the context.  [unbind] clears it. *)
Theorem Regions_bind_looks_up
    (ImageConfig_regions_info : ImageConfig -> value)
    (regions : RegionsLifecycle.t) (w : World) :
  exists regions',
    RegionsLifecycle.bind ImageConfig_regions_info regions w
      = Normal regions' w /\
    RegionsLifecycle.config_id regions'
      = RegionsLifecycle.config_id regions /\
    (~ is_key (RegionsLifecycle.config_id regions) (this w) ->
     regions' = regions) /\
    (forall n c,
       RegionsLifecycle.config_id regions = VNumber n ->
       number_ltb0 n = false ->
       JsMap.get n (image_configs (this w)) = Some c ->
       RegionsLifecycle.regions_info regions' =
       if truthy (ImageConfig_regions_info c)
       then ImageConfig_regions_info c
       else RegionsLifecycle.regions_info regions) /\
    (forall n c,
       RegionsLifecycle.config_id regions = VNumber n ->
       JsMap.get n (image_configs (this w)) = Some c ->
       ImageConfig.id c = n ->
       RegionsLifecycle.bind ImageConfig_regions_info regions
         (world_of (removeImageConfig (VNumber n) w))
       = Normal regions (world_of (removeImageConfig (VNumber n) w))) /\
    RegionsLifecycle.unbind regions' w =
      Normal
        (RegionsLifecycle.mk (RegionsLifecycle.config_id regions) VNull) w.
Proof.
  destruct regions as [cid info]. simpl.
  assert (Habsent : forall w0,
    ~ is_key cid (this w0) ->
    RegionsLifecycle.bind ImageConfig_regions_info
      (RegionsLifecycle.mk cid info) w0
    = Normal (RegionsLifecycle.mk cid info) w0).
  { intros w0 Hkey. unfold RegionsLifecycle.bind, andThen.
    rewrite getImageConfig_run. simpl.
    destruct cid as [| | |n| | | | |]; try done.
    simpl in Hkey. destruct (number_ltb0 n); [done |].
    destruct (JsMap.get n (image_configs (this w0))); [| done].
    destruct Hkey. by eexists. }
  assert (Hremoved : forall n c,
    cid = VNumber n ->
    JsMap.get n (image_configs (this w)) = Some c ->
    ImageConfig.id c = n ->
    RegionsLifecycle.bind ImageConfig_regions_info
      (RegionsLifecycle.mk cid info)
      (world_of (removeImageConfig (VNumber n) w))
    = Normal (RegionsLifecycle.mk cid info)
        (world_of (removeImageConfig (VNumber n) w))).
  { intros n c -> Hget Hc. apply Habsent.
    rewrite removeImageConfig_run. simpl. rewrite Hget. simpl.
    rewrite Hc, JsMapFacts.get_delete_eq. by intros [? ?]. }
  assert (Hdec : is_key cid (this w) \/ ~ is_key cid (this w)).
  { destruct cid as [| | |n| | | | |]; simpl; try (right; tauto).
    destruct (JsMap.get n (image_configs (this w)));
      [left; by eexists | right; by intros [? ?]]. }
  destruct Hdec as [Hkey | Hkey].
  - destruct cid as [| | |n| | | | |]; try done.
    simpl in Hkey. destruct Hkey as [c Hget].
    unfold RegionsLifecycle.bind at 1. unfold andThen.
    rewrite getImageConfig_run. simpl.
    destruct (number_ltb0 n) eqn:Hn; simpl.
    + eexists. split; [reflexivity |]. simpl. split_and!; try done.
      intros n0 c0 [= <-]. by rewrite Hn.
    + rewrite Hget. simpl.
      destruct (truthy (ImageConfig_regions_info c)) eqn:Htruthy; simpl;
        eexists; (split; [reflexivity |]); simpl; split_and!;
        first [ exact Hremoved
              | reflexivity
              | intros Habs; destruct Habs; by eexists
              | intros n0 c0 Hn0 _ Hc0;
                injection Hn0 as <-; rewrite Hget in Hc0;
                injection Hc0 as <-; by rewrite Htruthy ].
  - rewrite (Habsent w Hkey). eexists. split; [reflexivity |]. simpl.
    split_and!; try done.
    intros n c -> _ Hget. destruct Hkey. simpl. by eexists.
Qed.

(** ** The shape of [image_configs], all methods together *)

(** X23: a map that holds each key once, with every config under its own
    id, still does after [addImageConfig], [removeImageConfig] and
    [selectConfig] with whatever arguments, in either mode and however the
    call ends. *)
Theorem image_configs_well_formed_kept
    (ImageConfig_id : nat -> number) (v : value) (w : World) :
  JsMap.unique (image_configs (this w)) ->
  keyed_by_id (image_configs (this w)) ->
  (JsMap.unique
     (image_configs (this (world_of (addImageConfig ImageConfig_id v w)))) /\
   keyed_by_id
     (image_configs (this (world_of (addImageConfig ImageConfig_id v w))))) /\
  (JsMap.unique (image_configs (this (world_of (removeImageConfig v w)))) /\
   keyed_by_id (image_configs (this (world_of (removeImageConfig v w))))) /\
  (JsMap.unique (image_configs (this (world_of (selectConfig v w)))) /\
   keyed_by_id (image_configs (this (world_of (selectConfig v w))))).
Proof.
  intros Huniq Hkeyed. split_and!.
  - by apply addImageConfig_well_formed.
  - by apply addImageConfig_well_formed.
  - by apply removeImageConfig_well_formed.
  - by apply removeImageConfig_well_formed.
  - by rewrite selectConfig_image_configs.
  - by rewrite selectConfig_image_configs.
Qed.

Lemma image_configs_well_formed_kept_witness :
  (JsMap.unique (image_configs (this World_one_config)) /\
   keyed_by_id (image_configs (this World_one_config))) /\
  JsMap.unique
    (image_configs
       (this (world_of
          (addImageConfig counting_ids (VNumber (Int 7)) World_one_config))))
  /\
  keyed_by_id
    (image_configs
       (this (world_of
          (addImageConfig counting_ids (VNumber (Int 7)) World_one_config)))).
Proof.
  assert (H1 : JsMap.unique (image_configs (this World_one_config)))
    by apply NoDup_singleton.
  assert (H2 : keyed_by_id (image_configs (this World_one_config)))
    by (by apply Forall_singleton).
  split; [by split |].
  exact (proj1 (image_configs_well_formed_kept counting_ids (VNumber (Int 7))
                  World_one_config H1 H2)).
Defined.

(** ** More on the server of the requests *)

Lemma indexOf_from_unfold i str sub :
  indexOf_from i str sub =
  if String.prefix sub str then i
  else match str with
       | EmptyString => -1
       | String _ rest => indexOf_from (i + 1) rest sub
       end.
Proof. by destruct str. Qed.

(** Where a search from position [i] ends, next to the search from 0. *)
Lemma indexOf_from_shift sub str : forall i,
  (indexOf_from i str sub = -1 /\ indexOf_from 0 str sub = -1) \/
  (0 <= indexOf_from 0 str sub /\
   indexOf_from i str sub = i + indexOf_from 0 str sub).
Proof.
  induction str as [|c rest IH]; intros i;
    rewrite (indexOf_from_unfold i), (indexOf_from_unfold 0).
  - destruct (String.prefix sub ""); [right; lia | by left].
  - destruct (String.prefix sub (String c rest)); [right; lia |].
    destruct (IH (i + 1)) as [[Hi H0] | [H0 Hi]];
      destruct (IH (0 + 1)) as [[Hi' H0'] | [H0' Hi']]; lia.
Qed.

(** Behind ["http://"] the two names are found seven places further on, or
    not at all. *)
Lemma indexOf_behind_scheme str sub :
  sub = "localhost" \/ sub = "127.0.0.1" ->
  (indexOf str sub = -1 /\ indexOf (String.append "http://" str) sub = -1) \/
  (0 <= indexOf str sub /\
   indexOf (String.append "http://" str) sub = 7 + indexOf str sub).
Proof.
  intros Hsub. unfold indexOf.
  assert (Hskip : indexOf_from 0 (String.append "http://" str) sub
                  = indexOf_from 7 str sub).
  { destruct Hsub as [-> | ->]; reflexivity. }
  rewrite Hskip.
  destruct (indexOf_from_shift sub str 7) as [[? ?] | [? ?]];
    [by left | by right].
Qed.

(** A server that carries the scheme is left as it is. *)
Lemma normalize_server_scheme str :
  normalize_server (VString (String.append "http://" str))
  = String.append "http://" str.
Proof.
  unfold normalize_server.
  change (str_length (String.append "http://" str) =? 0) with false.
  change (str_length "http://") with 7.
  destruct (indexOf_behind_scheme str "localhost" (or_introl eq_refl))
    as [[_ ->] | [? ->]];
    destruct (indexOf_behind_scheme str "127.0.0.1" (or_intror eq_refl))
      as [[_ ->] | [? ->]];
    repeat match goal with
           | |- context [?a >=? ?b] =>
               destruct (Z.geb_spec a b); try lia
           | |- context [?a <? ?b] =>
               destruct (Z.ltb_spec a b); try lia
           end; reflexivity.
Qed.

(** The server worked out of a string is that string, or that string
    behind the scheme. *)
Lemma normalize_server_shape str :
  normalize_server (VString str) = str \/
  normalize_server (VString str) = String.append "http://" str.
Proof.
  unfold normalize_server.
  destruct str as [|c rest]; [by left |].
  change (str_length (String c rest) =? 0)
    with (Z.of_nat (S (String.length rest)) =? 0).
  destruct (Z.eqb_spec (Z.of_nat (S (String.length rest))) 0); [lia |].
  match goal with
  | |- context [if ?b then _ else _] => destruct b; [by right | by left]
  end.
Qed.

(** X24: the server that the constructor works out of a string is that
    string or that string behind ["http://"], and the empty string for
    what is no string; a string that starts with ["http://"] is never
    changed; and working it out again changes nothing, so the scheme is
    never put in front twice. *)
Theorem normalize_server_idempotent (server : value) :
  match server with
  | VString str =>
      normalize_server server = str \/
      normalize_server server = String.append "http://" str
  | _ => normalize_server server = ""
  end /\
  (forall str,
     normalize_server (VString (String.append "http://" str))
     = String.append "http://" str) /\
  normalize_server (VString (normalize_server server))
  = normalize_server server.
Proof.
  split_and!.
  - destruct server; try reflexivity. apply normalize_server_shape.
  - apply normalize_server_scheme.
  - destruct server as [| | | |str| | | |]; try reflexivity.
    destruct (normalize_server_shape str) as [H | H]; rewrite H.
    + exact H.
    + apply normalize_server_scheme.
Qed.
